(** * S2Mosaic: the mosaic coordinator and the pipeline stages it drives

    [Coordinator] embeds [mosaic] of [s2mosaic/coordinator.py].  The helpers it
    imports from [s2mosaic/helpers.py] are taken as parameters (record
    [Helpers]); every call the coordinator makes is recorded in a log, so that
    "no search / fetch / export happened" is a statement about that log.

    [Validation], [SceneSorter], [CloudMasker] and [Compositor] model the
    stages behind those helpers from the design document. *)

From Stdlib Require Import String Ascii Bool Arith ZArith QArith Lia.
From Stdlib Require Import List Permutation Sorted.
Import ListNotations.

Local Close Scope Q_scope.
Local Close Scope Z_scope.
Local Open Scope nat_scope.
Local Open Scope string_scope.
Local Open Scope list_scope.

(* ===================================================================== *)
(** ** Python values shared by the modules *)
(* ===================================================================== *)

Module Py.

(** A raised exception: its class and its message. *)
Inductive Exn : Type :=
| PyExn (cls : string) (msg : string).

(** What a call does: return a value or raise. *)
Inductive Outcome (A : Type) : Type :=
| Returned (a : A)
| Raised (e : Exn).
Arguments Returned {A} a.
Arguments Raised {A} e.

(** [x in xs] on a list of [str]. *)
Definition str_in (x : string) (xs : list string) : bool :=
  existsb (String.eqb x) xs.

(** [output_dir : Optional[Union[Path, str]]]. *)
Inductive DirArg : Type :=
| DirPath (p : string)
| DirStr (s : string).

(** Truth value of [output_dir] in [if output_dir:]: [None] and the empty
    [str] are false, a [Path] object is always true. *)
Definition truthy (d : option DirArg) : bool :=
  match d with
  | None => false
  | Some (DirStr s) => negb (String.eqb s "")
  | Some (DirPath _) => true
  end.

End Py.

(* ===================================================================== *)
(** ** coordinator.py *)
(* ===================================================================== *)

Module Coordinator.
Import Py.

(** The keyword arguments of [mosaic].  [no_data_threshold] is a float or
    [None]; the coordinator only passes it on, it is kept as a rational. *)
Record Args : Type := {
  grid_id : string;
  start_year : Z;
  start_month : Z;
  start_day : Z;
  output_dir : option DirArg;
  sort_method : string;
  mosaic_method : string;
  duration_years : Z;
  duration_months : Z;
  duration_days : Z;
  required_bands : list string;
  no_data_threshold : option Q;
  overwrite : bool;
  ocm_batch_size : Z;
  ocm_inference_dtype : string;
  debug_cache : bool
}.

(** The defaults of the signature. *)
Definition default_args (grid : string) (year : Z) : Args :=
  {| grid_id := grid; start_year := year; start_month := 1; start_day := 1;
     output_dir := None; sort_method := "valid_data"; mosaic_method := "mean";
     duration_years := 0; duration_months := 0; duration_days := 0;
     required_bands := ["B04"; "B03"; "B02"; "B08"];
     no_data_threshold := Some (1 # 100)%Q; overwrite := true;
     ocm_batch_size := 1; ocm_inference_dtype := "bf16";
     debug_cache := false |}.

(** The same call with another [output_dir]. *)
Definition with_output_dir (a : Args) (d : option DirArg) : Args :=
  {| grid_id := grid_id a; start_year := start_year a;
     start_month := start_month a; start_day := start_day a;
     output_dir := d; sort_method := sort_method a;
     mosaic_method := mosaic_method a; duration_years := duration_years a;
     duration_months := duration_months a; duration_days := duration_days a;
     required_bands := required_bands a;
     no_data_threshold := no_data_threshold a; overwrite := overwrite a;
     ocm_batch_size := ocm_batch_size a;
     ocm_inference_dtype := ocm_inference_dtype a;
     debug_cache := debug_cache a |}.

(** The same call with another [overwrite]. *)
Definition with_overwrite (a : Args) (o : bool) : Args :=
  {| grid_id := grid_id a; start_year := start_year a;
     start_month := start_month a; start_day := start_day a;
     output_dir := output_dir a; sort_method := sort_method a;
     mosaic_method := mosaic_method a; duration_years := duration_years a;
     duration_months := duration_months a; duration_days := duration_days a;
     required_bands := required_bands a;
     no_data_threshold := no_data_threshold a; overwrite := o;
     ocm_batch_size := ocm_batch_size a;
     ocm_inference_dtype := ocm_inference_dtype a;
     debug_cache := debug_cache a |}.

Section Mosaic.

(** The outside world (catalog, network, file system) and the values the
    helpers exchange. *)
Context {World Bounds Date Path Item Annotated SortedItems Array Profile : Type}.

(** A helper: reads and changes the world, returns or raises. *)
Definition Helper (A : Type) : Type := World -> Outcome A * World.

Record Helpers : Type := {
  get_extent_from_grid_id : string -> Helper Bounds;
  validate_inputs :
    string -> string -> option Q -> list string -> Helper unit;
  define_dates : Z -> Z -> Z -> Z -> Z -> Z -> Helper (Date * Date);
  get_output_path :
    string -> Date -> Date -> string -> string -> list string ->
    option DirArg -> Helper Path;
  path_exists : Path -> Helper bool;
  strftime : Date -> string -> string;
  search_for_items : Bounds -> string -> Date -> Date -> Helper (list Item);
  add_item_info : list Item -> Helper Annotated;
  sort_items : Annotated -> string -> Helper SortedItems;
  download_bands_pool :
    SortedItems -> list string -> option Q -> string -> Z -> string -> bool ->
    Helper (Array * Profile);
  export_tif :
    Array -> Profile -> Path -> list string -> option Z -> Helper unit
}.

(** One entry of the call log.  [call_exists] and [call_search_for_items]
    record what the world answered, [call_exists_raised] an existence check
    that raised (a [PermissionError], say), [call_export_tif] the band labels
    and the nodata value handed to the export. *)
Inductive Call : Type :=
| call_get_extent_from_grid_id
| call_validate_inputs
| call_define_dates
| call_get_output_path
| call_exists (p : Path) (answer : bool)
| call_exists_raised (p : Path)
| call_search_for_items (answer : Outcome (list Item))
| call_add_item_info
| call_sort_items
| call_download_bands_pool
| call_export_tif (bands : list string) (nodata_value : option Z).

Record State : Type := { world : World; calls : list Call }.

(** The coordinator's monad: state (world and log) with exceptions. *)
Definition M (A : Type) : Type := State -> Outcome A * State.

Definition ret {A} (a : A) : M A := fun st => (Returned a, st).

Definition raise {A} (e : Exn) : M A := fun st => (Raised e, st).

Definition bind {A B} (m : M A) (k : A -> M B) : M B :=
  fun st =>
    match m st with
    | (Returned a, st') => k a st'
    | (Raised e, st') => (Raised e, st')
    end.

(** Run a helper and append the call (with what it answered) to the log. *)
Definition call {A} (ev : Outcome A -> Call) (h : Helper A) : M A :=
  fun st =>
    let (r, w') := h (world st) in
    (r, {| world := w'; calls := calls st ++ [ev r] |}).

(** [export_path.exists()]: it answers, or raises as [pathlib] does on an
    [OSError] other than "no such file". *)
Definition exists_ (H : Helpers) (p : Path) : M bool :=
  call (fun r => match r with
                 | Returned b => call_exists p b
                 | Raised _ => call_exists_raised p
                 end)
       (path_exists H p).

Notation "x <- m ;; k" := (bind m (fun x => k))
  (at level 61, m at next level, right associativity).
Notation "' pat <- m ;; k" := (bind m (fun x => match x with pat => k end))
  (at level 61, pat pattern, m at next level, right associativity).

(** What [mosaic] returns: the array and its profile, or the path of the
    written file. *)
Inductive Result : Type :=
| InMemory (mosaic : Array) (profile : Profile)
| Written (export_path : Path).

(** The message of the exception of line 149. *)
Definition no_scenes_message (H : Helpers) (grid : string)
    (start_date end_date : Date) : string :=
  ("No scenes found for " ++ grid ++ " between "
     ++ strftime H start_date "%Y-%m-%d" ++ " and "
     ++ strftime H end_date "%Y-%m-%d")%string.

Definition no_scenes (H : Helpers) (grid : string)
    (start_date end_date : Date) : Exn :=
  PyExn "Exception" (no_scenes_message H grid start_date end_date).

(** Lines 166-170: the labels and the nodata value for the export. *)
Definition export_labels (bands : list string) : list string * option Z :=
  if str_in "visual" bands
  then (["Red"; "Green"; "Blue"], None)
  else (bands, Some 0%Z).

(** Lines 144-182, after the overwrite check.  [export_path] is bound
    exactly when [output_dir] is true. *)
Definition mosaic_pipeline (H : Helpers) (a : Args) (bounds : Bounds)
    (start_date end_date : Date) (export_path : option Path) : M Result :=
  items <- call call_search_for_items
             (search_for_items H bounds (grid_id a) start_date end_date) ;;
  if (length items =? 0)%nat
  then raise (no_scenes H (grid_id a) start_date end_date)
  else
    items_with_orbits <- call (fun _ => call_add_item_info)
                           (add_item_info H items) ;;
    sorted_items <- call (fun _ => call_sort_items)
                      (sort_items H items_with_orbits (sort_method a)) ;;
    ' (mosaic, profile) <-
        call (fun _ => call_download_bands_pool)
          (download_bands_pool H sorted_items (required_bands a)
             (no_data_threshold a) (mosaic_method a) (ocm_batch_size a)
             (ocm_inference_dtype a) (debug_cache a)) ;;
    let (labels, nodata_value) := export_labels (required_bands a) in
    match export_path with
    | Some p =>
        _ <- call (fun _ => call_export_tif labels nodata_value)
               (export_tif H mosaic profile p labels nodata_value) ;;
        ret (Written p)
    | None => ret (InMemory mosaic profile)
    end.

(** [mosaic], lines 117-182. *)
Definition mosaic (H : Helpers) (a : Args) : M Result :=
  bounds <- call (fun _ => call_get_extent_from_grid_id)
              (get_extent_from_grid_id H (grid_id a)) ;;
  _ <- call (fun _ => call_validate_inputs)
         (validate_inputs H (sort_method a) (mosaic_method a)
            (no_data_threshold a) (required_bands a)) ;;
  ' (start_date, end_date) <-
      call (fun _ => call_define_dates)
        (define_dates H (start_year a) (start_month a) (start_day a)
           (duration_years a) (duration_months a) (duration_days a)) ;;
  if truthy (output_dir a)
  then
    export_path <-
      call (fun _ => call_get_output_path)
        (get_output_path H (grid_id a) start_date end_date (sort_method a)
           (mosaic_method a) (required_bands a) (output_dir a)) ;;
    found <- exists_ H export_path ;;
    if found && negb (overwrite a)
    then ret (Written export_path)
    else mosaic_pipeline H a bounds start_date end_date (Some export_path)
  else mosaic_pipeline H a bounds start_date end_date None.

(** [wp m Q st]: running [m] from [st] ends in an outcome and a state
    that satisfy [Q]. *)
Definition wp {A} (m : M A) (Q : Outcome A -> State -> Prop)
    (st : State) : Prop :=
  Q (fst (m st)) (snd (m st)).

(** The position of a helper call in the body of [mosaic], lines 117-179. *)
Definition call_rank (c : Call) : nat :=
  match c with
  | call_get_extent_from_grid_id => 0
  | call_validate_inputs => 1
  | call_define_dates => 2
  | call_get_output_path => 3
  | call_exists _ _ => 4
  | call_exists_raised _ => 4
  | call_search_for_items _ => 5
  | call_add_item_info => 6
  | call_sort_items => 7
  | call_download_bands_pool => 8
  | call_export_tif _ _ => 9
  end.

(** The positions of the calls of a run that goes all the way, with an
    output directory and without. *)
Definition full_run_ranks (to_disk : bool) : list nat :=
  if to_disk then [0; 1; 2; 3; 4; 5; 6; 7; 8; 9] else [0; 1; 2; 5; 6; 7; 8].

(** The calls that only a run with an output directory makes. *)
Definition is_disk_call (c : Call) : bool :=
  match c with
  | call_get_output_path | call_exists _ _ | call_exists_raised _
  | call_export_tif _ _ => true
  | _ => false
  end.

(** Where an exception of [mosaic] can come from: a helper or the existence
    check of line 141 that raised it, leaving the world [wf], or line 149
    after an empty catalog answer. *)
Inductive RaisedBy (H : Helpers) (a : Args) (e : Exn) (wf : World) : Prop :=
| by_get_extent_from_grid_id w1 :
    get_extent_from_grid_id H (grid_id a) w1 = (Raised e, wf) ->
    RaisedBy H a e wf
| by_validate_inputs w1 :
    validate_inputs H (sort_method a) (mosaic_method a)
      (no_data_threshold a) (required_bands a) w1 = (Raised e, wf) ->
    RaisedBy H a e wf
| by_define_dates w1 :
    define_dates H (start_year a) (start_month a) (start_day a)
      (duration_years a) (duration_months a) (duration_days a) w1
    = (Raised e, wf) ->
    RaisedBy H a e wf
| by_get_output_path start_date end_date w1 :
    get_output_path H (grid_id a) start_date end_date (sort_method a)
      (mosaic_method a) (required_bands a) (output_dir a) w1
    = (Raised e, wf) ->
    RaisedBy H a e wf
| by_exists export_path w1 :
    path_exists H export_path w1 = (Raised e, wf) ->
    RaisedBy H a e wf
| by_search_for_items bounds start_date end_date w1 :
    search_for_items H bounds (grid_id a) start_date end_date w1
    = (Raised e, wf) ->
    RaisedBy H a e wf
| by_no_scenes bounds start_date end_date w1 :
    search_for_items H bounds (grid_id a) start_date end_date w1
    = (Returned [], wf) ->
    e = no_scenes H (grid_id a) start_date end_date ->
    RaisedBy H a e wf
| by_add_item_info items w1 :
    add_item_info H items w1 = (Raised e, wf) ->
    RaisedBy H a e wf
| by_sort_items items_with_orbits w1 :
    sort_items H items_with_orbits (sort_method a) w1 = (Raised e, wf) ->
    RaisedBy H a e wf
| by_download_bands_pool sorted_items w1 :
    download_bands_pool H sorted_items (required_bands a)
      (no_data_threshold a) (mosaic_method a) (ocm_batch_size a)
      (ocm_inference_dtype a) (debug_cache a) w1 = (Raised e, wf) ->
    RaisedBy H a e wf
| by_export_tif mosaic profile export_path w1 :
    export_tif H mosaic profile export_path
      (fst (export_labels (required_bands a)))
      (snd (export_labels (required_bands a))) w1 = (Raised e, wf) ->
    RaisedBy H a e wf.

(** One call of [mosaic] from a world, with an empty log. *)
Definition run (H : Helpers) (a : Args) (w : World) : Outcome Result * State :=
  mosaic H a {| world := w; calls := [] |}.

(** The calls that look for scenes, and the calls that do pipeline work
    on them (annotate, sort, fetch/mask/composite, export). *)
Definition is_search (c : Call) : bool :=
  match c with call_search_for_items _ => true | _ => false end.

Definition is_work (c : Call) : bool :=
  match c with
  | call_add_item_info | call_sort_items | call_download_bands_pool
  | call_export_tif _ _ => true
  | _ => false
  end.

Definition no_search (log : list Call) : Prop :=
  forallb (fun c => negb (is_search c)) log = true.

Definition no_work (log : list Call) : Prop :=
  forallb (fun c => negb (is_work c)) log = true.

End Mosaic.

End Coordinator.

(* ===================================================================== *)
(** ** Configuration validation *)
(* ===================================================================== *)

Module Validation.
Import Py.

(** Modelled from the spec: the supported sort policies. *)
Definition sort_methods : list string := ["valid_data"; "oldest"; "newest"].

(** Modelled from the spec: the supported mosaic methods. *)
Definition mosaic_methods : list string := ["mean"; "first"].

(** Modelled from the spec: the no-data threshold is in [[0, 1]], or
    disabled. *)
Definition threshold_in_range (t : option Q) : bool :=
  match t with
  | None => true
  | Some q => Qle_bool 0 q && Qle_bool q 1
  end.

(** Modelled from the spec: the band list is non-empty and does not mix the
    visual composite band with individual reflectance bands. *)
Definition bands_well_formed (bands : list string) : bool :=
  negb (length bands =? 0)%nat
  && (negb (str_in "visual" bands) || forallb (String.eqb "visual") bands).

(** Modelled from the spec: the ConfigurationError of the error taxonomy. *)
Definition configuration_error (msg : string) : Exn :=
  PyExn "ConfigurationError" msg.

Definition is_configuration_error (e : Exn) : bool :=
  match e with PyExn cls _ => String.eqb cls "ConfigurationError" end.

(** Modelled from the spec: [validate_inputs] of [s2mosaic/helpers.py] is not
    among the sources.  The configuration surface of the design document:
    sort policy in {valid_data, oldest, newest}, mosaic method in
    {mean, first}, a well-formed band list, a threshold in [[0, 1]] or
    disabled; anything else is a ConfigurationError. *)
Definition validate_inputs (sort_method mosaic_method : string)
    (no_data_threshold : option Q) (required_bands : list string)
    : Outcome unit :=
  if negb (str_in sort_method sort_methods)
  then Raised (configuration_error "unsupported sort method")
  else if negb (str_in mosaic_method mosaic_methods)
  then Raised (configuration_error "unsupported mosaic method")
  else if negb (threshold_in_range no_data_threshold)
  then Raised (configuration_error "no-data threshold out of range")
  else if negb (bands_well_formed required_bands)
  then Raised (configuration_error "malformed band list")
  else Returned tt.

(** Modelled from the spec: a configuration is valid when all four
    conditions hold. *)
Definition valid_configuration (sort_method mosaic_method : string)
    (no_data_threshold : option Q) (required_bands : list string) : bool :=
  str_in sort_method sort_methods
  && str_in mosaic_method mosaic_methods
  && threshold_in_range no_data_threshold
  && bands_well_formed required_bands.

End Validation.

(* ===================================================================== *)
(** ** SceneSorter *)
(* ===================================================================== *)

Module SceneSorter.
Import Py.

(** Modelled from the spec: one satellite capture after the OrbitAnnotator,
    with its stable identifier, acquisition timestamp, relative orbit and
    references to its band assets. *)
Record SceneItem : Type := {
  identifier : string;
  acquired : Z;
  relative_orbit : Z;
  assets : list (string * string)
}.

(** Modelled from the spec: the sort policies. *)
Inductive Policy : Type := valid_data | oldest | newest.

Definition parse_policy (s : string) : option Policy :=
  if String.eqb s "valid_data" then Some valid_data
  else if String.eqb s "oldest" then Some oldest
  else if String.eqb s "newest" then Some newest
  else None.

Section Sorter.

(** Modelled from the spec: the scene-level pre-check of the [valid_data]
    policy, the number of usable pixels a scene is expected to contribute. *)
Variable expected_valid : SceneItem -> Z.

(** Modelled from the spec: the primary key of each policy, [valid_data] by
    descending expected usable pixels, [oldest] / [newest] by acquisition
    date ascending / descending. *)
Definition primary_compare (p : Policy) (a b : SceneItem) : comparison :=
  match p with
  | valid_data => Z.compare (expected_valid b) (expected_valid a)
  | oldest => Z.compare (acquired a) (acquired b)
  | newest => Z.compare (acquired b) (acquired a)
  end.

(** Modelled from the spec: primary key first, the scene identifier on
    ties. *)
Definition scene_compare (p : Policy) (a b : SceneItem) : comparison :=
  match primary_compare p a b with
  | Eq => String.compare (identifier a) (identifier b)
  | c => c
  end.

Definition scene_leb (p : Policy) (a b : SceneItem) : bool :=
  match scene_compare p a b with Gt => false | _ => true end.

(** The order the sorter sorts by. *)
Definition scene_le (p : Policy) (a b : SceneItem) : Prop :=
  scene_leb p a b = true.

(** The primary key as a number to be sorted ascending. *)
Definition sort_key (p : Policy) (a : SceneItem) : Z :=
  match p with
  | valid_data => (- expected_valid a)%Z
  | oldest => acquired a
  | newest => (- acquired a)%Z
  end.

Fixpoint insert (p : Policy) (x : SceneItem) (l : list SceneItem)
    : list SceneItem :=
  match l with
  | [] => [x]
  | y :: l' => if scene_leb p x y then x :: l else y :: insert p x l'
  end.

Definition sort (p : Policy) (l : list SceneItem) : list SceneItem :=
  fold_right (insert p) [] l.

(** Modelled from the spec: [sort_items] of [s2mosaic/helpers.py] is not
    among the sources.  [sort(scenes, policy)]: order by the policy's
    primary key, ties broken by scene identifier; an unknown policy is a
    ConfigurationError. *)
Definition sort_items (scenes : list SceneItem) (sort_method : string)
    : Outcome (list SceneItem) :=
  match parse_policy sort_method with
  | Some p => Returned (sort p scenes)
  | None => Raised (PyExn "ConfigurationError" "unsupported sort method")
  end.

End Sorter.

End SceneSorter.

(* ===================================================================== *)
(** ** Arrays, band stacks and masks *)
(* ===================================================================== *)

Module Raster.

(** Modelled from the spec: the tile's pixel grid. *)
Record Grid : Type := { height : nat; width : nat }.

(** All (row, column) pairs of the grid, row by row. *)
Definition pixels (g : Grid) : list (nat * nat) :=
  list_prod (seq 0 (height g)) (seq 0 (width g)).

(** A (bands x height x width) array, read by index. *)
Definition Array3 (A : Type) : Type := nat -> nat -> nat -> A.

(** A (height x width) array. *)
Definition Array2 (A : Type) : Type := nat -> nat -> A.

(** Two arrays agree on every band and every pixel of the grid. *)
Definition array_eq {A} (g : Grid) (x y : Array3 A) : Prop :=
  forall b r c, r < height g -> c < width g -> x b r c = y b r c.

(** Modelled from the spec: per-scene band values, of shape
    (bands x height x width), and the scene's own no-data indicator. *)
Record BandStack : Type := {
  band_values : Array3 Z;
  no_data : Array2 bool
}.

(** Modelled from the spec: a boolean (height x width) array marking the
    pixels usable for compositing. *)
Definition CloudMask : Type := Array2 bool.

End Raster.

(* ===================================================================== *)
(** ** CloudMasker *)
(* ===================================================================== *)

Module CloudMasker.
Import Raster.

(** Modelled from the spec: the classes the detector assigns to a pixel. *)
Inductive PixelClass : Type := clear | cloud | shadow | missing.

(** Modelled from the spec: the inference precision tag. *)
Inductive Precision : Type := full | half.

Definition is_clear (k : PixelClass) : bool :=
  match k with clear => true | _ => false end.

Section Masker.

(** Modelled from the spec: the pretrained detector, a black box behind an
    interface with one method, batch in and classes out: given the stacks of
    a batch it answers, stack by stack, with the class of every pixel. *)
Variable detector : Precision -> list BandStack -> list (Array2 PixelClass).

(** Modelled from the spec: the mask is [true] only for "clear". *)
Definition mask_of (classes : Array2 PixelClass) : CloudMask :=
  fun r c => is_clear (classes r c).

(** Modelled from the spec: inference over one batch, one mask per answer of
    the detector, in order. *)
Definition infer_batch (precision : Precision) (batch : list BandStack)
    : list CloudMask :=
  map mask_of (detector precision batch).

(** The mask of a stack that goes through the detector alone. *)
Definition mask_alone (precision : Precision) (s : BandStack) : CloudMask :=
  hd (fun _ _ => false) (infer_batch precision [s]).

(** Modelled from the spec: the determinism requirement on the detector,
    masking is a pure function of the input stack: in every batch each stack
    gets the mask it gets alone. *)
Definition batch_independent (precision : Precision) : Prop :=
  forall batch, infer_batch precision batch = map (mask_alone precision) batch.

(** Modelled from the spec: consecutive batches of [batch_size] stacks (the
    last may be shorter); [fuel] bounds the number of batches. *)
Fixpoint batches (fuel batch_size : nat) (stacks : list BandStack)
    : list (list BandStack) :=
  match fuel with
  | O => []
  | S fuel' =>
      match stacks with
      | [] => []
      | _ => firstn batch_size stacks
               :: batches fuel' batch_size (skipn batch_size stacks)
      end
  end.

(** Modelled from the spec: the cloud masker behind [download_bands_pool]
    ([s2mosaic/helpers.py]) is not among the sources.
    [mask_batch(band_stacks, batch_size, inference_precision)]: partition
    the stacks into fixed-size batches, run the detector batch by batch,
    return one mask per stack in input order.  The batch size is a
    positive integer; [None] for 0. *)
Definition mask_batch (band_stacks : list BandStack) (batch_size : nat)
    (precision : Precision) : option (list CloudMask) :=
  match batch_size with
  | O => None
  | _ => Some (concat (map (infer_batch precision)
                         (batches (length band_stacks) batch_size
                            band_stacks)))
  end.

End Masker.

End CloudMasker.

(* ===================================================================== *)
(** ** Compositor *)
(* ===================================================================== *)

Module Compositor.
Import Raster.

(** Modelled from the spec: a fetched scene together with its cloud mask. *)
Record MaskedStack : Type := { stack : BandStack; mask : CloudMask }.

(** Modelled from the spec: a pixel is valid for aggregation only if the
    scene's own no-data indicator and the cloud mask agree. *)
Definition pixel_valid (s : MaskedStack) (r c : nat) : bool :=
  negb (no_data (stack s) r c) && mask s r c.

Definition pixel_value (s : MaskedStack) (b r c : nat) : Z :=
  band_values (stack s) b r c.

(** Modelled from the spec: the compositing methods. *)
Inductive Method : Type := mean | first.

(** Modelled from the spec: the running state of one mosaic build, sum and
    count for averaging, the winner so far for first-valid selection, and
    the per-pixel "already finalized" flag. *)
Record MosaicAccumulator : Type := {
  acc_sum : Array3 Z;
  acc_count : Array3 nat;
  acc_winner : Array3 Z;
  acc_finalized : Array2 bool
}.

Definition empty_accumulator : MosaicAccumulator :=
  {| acc_sum := fun _ _ _ => 0%Z;
     acc_count := fun _ _ _ => 0;
     acc_winner := fun _ _ _ => 0%Z;
     acc_finalized := fun _ _ => false |}.

(** Modelled from the spec: fold one scene into the accumulator.  [mean]
    adds the values of the valid pixels to the sum and counts them; [first]
    takes the value of a valid pixel that is not finalized yet and leaves a
    finalized pixel alone. *)
Definition fold_scene (m : Method) (acc : MosaicAccumulator)
    (s : MaskedStack) : MosaicAccumulator :=
  match m with
  | mean =>
      {| acc_sum := fun b r c =>
           if pixel_valid s r c
           then (acc_sum acc b r c + pixel_value s b r c)%Z
           else acc_sum acc b r c;
         acc_count := fun b r c =>
           if pixel_valid s r c
           then S (acc_count acc b r c)
           else acc_count acc b r c;
         acc_winner := acc_winner acc;
         acc_finalized := fun r c =>
           acc_finalized acc r c || pixel_valid s r c |}
  | first =>
      {| acc_sum := acc_sum acc;
         acc_count := acc_count acc;
         acc_winner := fun b r c =>
           if acc_finalized acc r c then acc_winner acc b r c
           else if pixel_valid s r c then pixel_value s b r c
           else acc_winner acc b r c;
         acc_finalized := fun r c =>
           acc_finalized acc r c || pixel_valid s r c |}
  end.

(** Modelled from the spec: the pixels of the grid that are still invalid,
    that is covered by no folded scene yet. *)
Definition count_invalid (g : Grid) (acc : MosaicAccumulator) : nat :=
  length (filter (fun p => negb (acc_finalized acc (fst p) (snd p)))
            (pixels g)).

(** Modelled from the spec: the remaining-invalid fraction (0 on an empty
    grid). *)
Definition fraction_invalid (g : Grid) (acc : MosaicAccumulator) : Q :=
  (inject_Z (Z.of_nat (count_invalid g acc))
   / inject_Z (Z.of_nat (length (pixels g))))%Q.

(** Modelled from the spec: the "continue?" predicate, evaluated after each
    scene.  The remaining scenes may be skipped once the remaining-invalid
    fraction is at or below the threshold, and threshold 0 forces every
    scene: the fold goes on while the threshold is at or below the fraction
    and stops when the fraction is strictly below it, so never at threshold
    0; a disabled threshold never stops the fold. *)
Definition continue_fold (threshold : option Q) (g : Grid)
    (acc : MosaicAccumulator) : bool :=
  match threshold with
  | None => true
  | Some t => Qle_bool t (fraction_invalid g acc)
  end.

(** Modelled from the spec: the fold over the scenes in sort order, with the
    early exit. *)
Fixpoint fold_scenes (m : Method) (threshold : option Q) (g : Grid)
    (acc : MosaicAccumulator) (scenes : list MaskedStack)
    : MosaicAccumulator :=
  match scenes with
  | [] => acc
  | s :: rest =>
      let acc' := fold_scene m acc s in
      if continue_fold threshold g acc'
      then fold_scenes m threshold g acc' rest
      else acc'
  end.

(** How many scenes that fold takes in before it stops. *)
Fixpoint scenes_folded (m : Method) (threshold : option Q) (g : Grid)
    (acc : MosaicAccumulator) (scenes : list MaskedStack) : nat :=
  match scenes with
  | [] => 0
  | s :: rest =>
      let acc' := fold_scene m acc s in
      if continue_fold threshold g acc'
      then S (scenes_folded m threshold g acc' rest)
      else 1
  end.

Section Output.

(** Modelled from the spec: the nodata sentinel written where no scene
    contributed. *)
Variable nodata : Q.

(** Modelled from the spec: the output array read off the accumulator, the
    average of the contributions or the winner, and the nodata sentinel for
    a pixel with no contribution. *)
Definition finalize (m : Method) (acc : MosaicAccumulator) : Array3 Q :=
  match m with
  | mean => fun b r c =>
      match acc_count acc b r c with
      | O => nodata
      | S n => Qmake (acc_sum acc b r c) (Pos.of_succ_nat n)
      end
  | first => fun b r c =>
      if acc_finalized acc r c
      then inject_Z (acc_winner acc b r c)
      else nodata
  end.

(** Modelled from the spec: the compositor inside [download_bands_pool]
    ([s2mosaic/helpers.py]) is not among the sources.
    [composite(ordered_stacks_with_masks, method, no_data_threshold)]
    returns the output array and the final invalid fraction. *)
Definition composite (g : Grid) (scenes : list MaskedStack) (m : Method)
    (threshold : option Q) : Array3 Q * Q :=
  let acc := fold_scenes m threshold g empty_accumulator scenes in
  (finalize m acc, fraction_invalid g acc).

End Output.

(** The first scene of a list whose mask marks the pixel valid. *)
Definition first_valid (scenes : list MaskedStack) (r c : nat)
    : option MaskedStack :=
  find (fun s => pixel_valid s r c) scenes.

(** The scenes of a list that contribute to the pixel. *)
Definition contributors (scenes : list MaskedStack) (r c : nat)
    : list MaskedStack :=
  filter (fun s => pixel_valid s r c) scenes.

(** The value the [first] rule assigns from a list of scenes. *)
Definition first_value (nodata : Q) (scenes : list MaskedStack)
    (b r c : nat) : Q :=
  match first_valid scenes r c with
  | Some s => inject_Z (pixel_value s b r c)
  | None => nodata
  end.

(** The value the [mean] rule assigns from a list of scenes. *)
Definition mean_value (nodata : Q) (scenes : list MaskedStack)
    (b r c : nat) : Q :=
  match contributors scenes r c with
  | [] => nodata
  | s :: rest =>
      Qmake (fold_right (fun s acc => (pixel_value s b r c + acc)%Z) 0%Z
               (s :: rest))
            (Pos.of_succ_nat (length rest))
  end.

End Compositor.

(* ===================================================================== *)
(** ** Concrete inputs used by the examples below *)
(* ===================================================================== *)

Module Examples.
Import Py Coordinator.

(** Helpers over a trivial world: the catalog answers [found], the export
    path exists or not as [already_there] says, configuration is checked
    by [Validation.validate_inputs], every other helper just returns. *)
Definition stub_helpers (found : list string) (already_there : bool)
    : @Helpers unit unit string string string (list string) (list string)
               nat nat :=
  {| get_extent_from_grid_id := fun _ w => (Returned tt, w);
     validate_inputs := fun sm mm t bands w =>
       (Validation.validate_inputs sm mm t bands, w);
     define_dates := fun _ _ _ _ _ _ w =>
       (Returned ("2020-01-01", "2020-02-01"), w);
     get_output_path := fun grid _ _ _ _ _ _ w =>
       (Returned (grid ++ ".tif")%string, w);
     path_exists := fun _ w => (Returned already_there, w);
     strftime := fun d _ => d;
     search_for_items := fun _ _ _ _ w => (Returned found, w);
     add_item_info := fun items w => (Returned items, w);
     sort_items := fun items _ w => (Returned items, w);
     download_bands_pool := fun _ _ _ _ _ _ _ w => (Returned (7, 9), w);
     export_tif := fun _ _ _ _ _ w => (Returned tt, w) |}.

(** The same helpers, with a fetch that fails or an export that fails. *)
Definition failing_helpers (fetch_fails export_fails : bool)
    : @Helpers unit unit string string string (list string) (list string)
               nat nat :=
  {| get_extent_from_grid_id := fun _ w => (Returned tt, w);
     validate_inputs := fun sm mm t bands w =>
       (Validation.validate_inputs sm mm t bands, w);
     define_dates := fun _ _ _ _ _ _ w =>
       (Returned ("2020-01-01", "2020-02-01"), w);
     get_output_path := fun grid _ _ _ _ _ _ w =>
       (Returned (grid ++ ".tif")%string, w);
     path_exists := fun _ w => (Returned false, w);
     strftime := fun d _ => d;
     search_for_items := fun _ _ _ _ w => (Returned ["S2A_20200105"], w);
     add_item_info := fun items w => (Returned items, w);
     sort_items := fun items _ w => (Returned items, w);
     download_bands_pool := fun _ _ _ _ _ _ _ w =>
       if fetch_fails
       then (Raised (PyExn "RuntimeError" "all fetches failed"), w)
       else (Returned (7, 9), w);
     export_tif := fun _ _ _ _ _ w =>
       if export_fails
       then (Raised (PyExn "OSError" "disk full"), w)
       else (Returned tt, w) |}.

(** The same helpers, with a tile lookup that fails or an existence check
    that fails. *)
Definition blocked_helpers (unknown_tile locked_dir : bool)
    : @Helpers unit unit string string string (list string) (list string)
               nat nat :=
  {| get_extent_from_grid_id := fun _ w =>
       if unknown_tile
       then (Raised (PyExn "ValueError" "grid id not found"), w)
       else (Returned tt, w);
     validate_inputs := fun sm mm t bands w =>
       (Validation.validate_inputs sm mm t bands, w);
     define_dates := fun _ _ _ _ _ _ w =>
       (Returned ("2020-01-01", "2020-02-01"), w);
     get_output_path := fun grid _ _ _ _ _ _ w =>
       (Returned (grid ++ ".tif")%string, w);
     path_exists := fun _ w =>
       if locked_dir
       then (Raised (PyExn "PermissionError" "permission denied"), w)
       else (Returned false, w);
     strftime := fun d _ => d;
     search_for_items := fun _ _ _ _ w => (Returned ["S2A_20200105"], w);
     add_item_info := fun items w => (Returned items, w);
     sort_items := fun items _ w => (Returned items, w);
     download_bands_pool := fun _ _ _ _ _ _ _ w => (Returned (7, 9), w);
     export_tif := fun _ _ _ _ _ w => (Returned tt, w) |}.

Definition args_in_memory : Args := default_args "50HMH" 2020.

(** An in-memory call for the visual composite band. *)
Definition args_visual_in_memory : Args :=
  {| grid_id := "50HMH"; start_year := 2020; start_month := 1;
     start_day := 1; output_dir := None;
     sort_method := "valid_data"; mosaic_method := "mean";
     duration_years := 0; duration_months := 1; duration_days := 0;
     required_bands := ["visual"];
     no_data_threshold := Some (1 # 100)%Q; overwrite := true;
     ocm_batch_size := 1; ocm_inference_dtype := "bf16";
     debug_cache := false |}.

Definition args_to_disk : Args :=
  {| grid_id := "50HMH"; start_year := 2020; start_month := 1;
     start_day := 1; output_dir := Some (DirStr "out");
     sort_method := "valid_data"; mosaic_method := "mean";
     duration_years := 0; duration_months := 1; duration_days := 0;
     required_bands := ["B04"; "B03"; "B02"; "B08"];
     no_data_threshold := Some (1 # 100)%Q; overwrite := false;
     ocm_batch_size := 1; ocm_inference_dtype := "bf16";
     debug_cache := false |}.

Definition args_visual : Args :=
  {| grid_id := "50HMH"; start_year := 2020; start_month := 1;
     start_day := 1; output_dir := Some (DirPath "out");
     sort_method := "valid_data"; mosaic_method := "mean";
     duration_years := 0; duration_months := 1; duration_days := 0;
     required_bands := ["visual"];
     no_data_threshold := Some (1 # 100)%Q; overwrite := true;
     ocm_batch_size := 1; ocm_inference_dtype := "bf16";
     debug_cache := false |}.

Definition args_bad_sort : Args :=
  {| grid_id := "50HMH"; start_year := 2020; start_month := 1;
     start_day := 1; output_dir := Some (DirPath "out");
     sort_method := "cloudiest"; mosaic_method := "mean";
     duration_years := 0; duration_months := 1; duration_days := 0;
     required_bands := ["B04"];
     no_data_threshold := Some (1 # 100)%Q; overwrite := true;
     ocm_batch_size := 1; ocm_inference_dtype := "bf16";
     debug_cache := false |}.

(** Three scenes: two share the acquisition time, so that only the
    identifier orders them. *)
Definition scene_x : SceneSorter.SceneItem :=
  {| SceneSorter.identifier := "S2B_T50HMH_X"; SceneSorter.acquired := 20;
     SceneSorter.relative_orbit := 17; SceneSorter.assets := [] |}.

Definition scene_y : SceneSorter.SceneItem :=
  {| SceneSorter.identifier := "S2A_T50HMH_Y"; SceneSorter.acquired := 20;
     SceneSorter.relative_orbit := 17; SceneSorter.assets := [] |}.

Definition scene_z : SceneSorter.SceneItem :=
  {| SceneSorter.identifier := "S2A_T50HMH_Z"; SceneSorter.acquired := 10;
     SceneSorter.relative_orbit := 60; SceneSorter.assets := [] |}.

Definition clear_percent (s : SceneSorter.SceneItem) : Z :=
  if String.eqb (SceneSorter.identifier s) "S2A_T50HMH_Z" then 80%Z
  else 95%Z.

Import Raster.

Definition grid_1x1 : Grid := {| height := 1; width := 1 |}.

Definition grid_10x10 : Grid := {| height := 10; width := 10 |}.

Definition grid_20x20 : Grid := {| height := 20; width := 20 |}.

(** A stack whose every band has value [v] everywhere. *)
Definition flat_stack (v : Z) : BandStack :=
  {| band_values := fun _ _ _ => v; no_data := fun _ _ => false |}.

(** A classifier that calls a pixel cloud when band 0 is bright. *)
Definition bright_is_cloud (s : BandStack) : Array2 CloudMasker.PixelClass :=
  fun r c => if (band_values s 0%nat r c <? 2000)%Z
             then CloudMasker.clear else CloudMasker.cloud.

(** A detector that classifies each stack of a batch on its own. *)
Definition stackwise_detector (_ : CloudMasker.Precision)
    (batch : list BandStack) : list (Array2 CloudMasker.PixelClass) :=
  map bright_is_cloud batch.

(** A detector that is sure of nothing in a crowd: it answers like
    [stackwise_detector] on a batch of one stack and calls every pixel
    cloud on a larger batch. *)
Definition crowd_shy_detector (_ : CloudMasker.Precision)
    (batch : list BandStack) : list (Array2 CloudMasker.PixelClass) :=
  map (fun s r c => if (length batch <=? 1)%nat
                    then bright_is_cloud s r c
                    else CloudMasker.cloud) batch.

(** A fully clear scene of constant value. *)
Definition clear_scene (v : Z) : Compositor.MaskedStack :=
  {| Compositor.stack := flat_stack v;
     Compositor.mask := fun _ _ => true |}.

(** A scene of constant value, clear everywhere but at pixel (0, 0). *)
Definition corner_cloud_scene (v : Z) : Compositor.MaskedStack :=
  {| Compositor.stack := flat_stack v;
     Compositor.mask := fun r c => negb ((r =? 0)%nat && (c =? 0)%nat) |}.

(** The two-scene scenario of the design document on a 10 x 10 tile: S1 is
    80% clear (columns 8 and 9 are cloud) with value 100, S2 is 95% clear
    (the right half of row 0 is cloud) with value 200. *)
Definition scene_S1 : Compositor.MaskedStack :=
  {| Compositor.stack := flat_stack 100;
     Compositor.mask := fun r c => (c <? 8)%nat |}.

Definition scene_S2 : Compositor.MaskedStack :=
  {| Compositor.stack := flat_stack 200;
     Compositor.mask := fun r c => negb ((r =? 0)%nat && (5 <=? c)%nat) |}.

End Examples.

(* ===================================================================== *)
(** * Properties of the configuration check *)
(* ===================================================================== *)

Module ValidationFacts.
Import Py Validation.

(** An invalid configuration is rejected with a ConfigurationError. *)
Lemma validate_inputs_rejects sm mm t bands :
  valid_configuration sm mm t bands = false ->
  exists msg, validate_inputs sm mm t bands = Raised (configuration_error msg).
Proof.
  unfold valid_configuration, validate_inputs. intros Hv.
  destruct (str_in sm sort_methods); cbn [negb andb] in *; [| eauto].
  destruct (str_in mm mosaic_methods); cbn [negb andb] in *; [| eauto].
  destruct (threshold_in_range t); cbn [negb andb] in *; [| eauto].
  destruct (bands_well_formed bands); cbn [negb andb] in *;
    [discriminate Hv | eauto].
Qed.

(** A valid configuration passes. *)
Lemma validate_inputs_accepts sm mm t bands :
  valid_configuration sm mm t bands = true ->
  validate_inputs sm mm t bands = Returned tt.
Proof.
  unfold valid_configuration, validate_inputs. intros Hv.
  repeat (apply andb_prop in Hv; destruct Hv as [Hv ?]).
  repeat match goal with E : _ = true |- _ => rewrite E; clear E end.
  reflexivity.
Qed.

Lemma configuration_error_is_one msg :
  is_configuration_error (configuration_error msg) = true.
Proof. reflexivity. Qed.

End ValidationFacts.

(* ===================================================================== *)
(** * Properties of the coordinator *)
(* ===================================================================== *)

Module CoordinatorFacts.
Import Py Coordinator.

Lemma str_in_true x xs : str_in x xs = true <-> In x xs.
Proof.
  unfold str_in. rewrite existsb_exists. split.
  - intros [y [Hy He]]. apply String.eqb_eq in He. now subst.
  - intros Hx. exists x. split; [assumption | apply String.eqb_refl].
Qed.

Lemma str_in_false x xs : str_in x xs = false <-> ~ In x xs.
Proof.
  rewrite <- str_in_true. destruct (str_in x xs); split; congruence.
Qed.

Section Wp.
Context {World Bounds Date Path Item Annotated SortedItems Array Profile : Type}.
Let Helpers' :=
  @Helpers World Bounds Date Path Item Annotated SortedItems Array Profile.
Let State' := @State World Path Item.
Let M' := @M World Path Item.

Lemma wp_ret {A} (x : A) (Q : Outcome A -> State' -> Prop) (st : State') :
  Q (Returned x) st -> wp (ret x) Q st.
Proof. exact (fun q => q). Qed.

Lemma wp_raise {A} e (Q : Outcome A -> State' -> Prop) (st : State') :
  Q (Raised e) st -> wp (raise e) Q st.
Proof. exact (fun q => q). Qed.

Lemma wp_bind {A B} (m : M' A) (k : A -> M' B)
    (Q : Outcome B -> State' -> Prop) (st : State') :
  wp m (fun o st' =>
          match o with
          | Returned x => wp (k x) Q st'
          | Raised e => Q (Raised e) st'
          end) st ->
  wp (bind m k) Q st.
Proof.
  unfold wp, bind. destruct (m st) as [[x | e] st']; simpl; auto.
Qed.

Lemma wp_call {A} (ev : Outcome A -> Call) (h : World -> Outcome A * World)
    (Q : Outcome A -> State' -> Prop) (st : State') :
  (forall r w', h (world st) = (r, w') ->
                Q r {| world := w'; calls := calls st ++ [ev r] |}) ->
  wp (call ev h) Q st.
Proof.
  unfold wp, call. intros HQ.
  destruct (h (world st)) as [r w'] eqn:E. simpl. now apply HQ.
Qed.

Lemma wp_run (H : Helpers') a w (Q : Outcome Result -> State' -> Prop) :
  wp (mosaic H a) Q {| world := w; calls := [] |} ->
  Q (fst (run H a w)) (snd (run H a w)).
Proof. exact (fun q => q). Qed.

End Wp.

(** Symbolic execution of the coordinator, one call at a time. *)
Ltac wp_step :=
  match goal with
  | |- wp (bind _ _) _ _ => apply wp_bind
  | |- wp (exists_ _ _) _ _ => unfold exists_
  | |- wp (call _ _) _ _ =>
      apply wp_call; cbn [calls world app];
      let E := fresh "E" in intros [? | ?] ? E
  | |- wp (ret _) _ _ => apply wp_ret
  | |- wp (raise _) _ _ => apply wp_raise
  | |- wp (if ?b then _ else _) _ _ =>
      let Hb := fresh "Hb" in destruct b eqn:Hb
  | |- wp (match ?x with (_, _) => _ end) _ _ => destruct x
  | |- wp (let (_, _) := ?x in _) _ _ =>
      let Hl := fresh "Hl" in destruct x eqn:Hl
  | |- wp (match ?x with Some _ => _ | None => _ end) _ _ => destruct x
  end.

(** Case analysis on membership in an explicit log. *)
Ltac log_cases HIn :=
  simpl in HIn;
  repeat (destruct HIn as [HIn | HIn]; [try discriminate HIn | ]);
  try contradiction.

Ltac wp_run :=
  match goal with
  | |- context [run ?H ?a ?w] =>
      pattern (fst (run H a w)), (snd (run H a w));
      apply wp_run; unfold mosaic, mosaic_pipeline; repeat wp_step
  end.

Section Runs.
Context {World Bounds Date Path Item Annotated SortedItems Array Profile : Type}.
Variable H :
  @Helpers World Bounds Date Path Item Annotated SortedItems Array Profile.
Variable a : Args.
Variable w : World.

Let outcome := fst (run H a w).
Let log := calls (snd (run H a w)).

(** Whatever is handed to the export is what lines 166-170 computed. *)
Lemma export_calls_labelled bands nd :
  In (call_export_tif bands nd) log ->
  (bands, nd) = export_labels (required_bands a).
Proof.
  subst log. revert bands nd. wp_run.
  all: intros bands nd HIn; log_cases HIn.
  all: injection HIn as <- <-; congruence.
Qed.

(** A run that went through the pipeline and returned a path has called
    the export. *)
Lemma written_after_download_exports out_path :
  outcome = Returned (Written out_path) ->
  In call_download_bands_pool log ->
  In (call_export_tif (fst (export_labels (required_bands a)))
                      (snd (export_labels (required_bands a)))) log.
Proof.
  subst outcome log. revert out_path. wp_run.
  all: intros out_path HR HIn; try discriminate HR; log_cases HIn.
  all: simpl; tauto.
Qed.

(** A run with no output directory never calls the export. *)
Lemma in_memory_no_export bands nd :
  truthy (output_dir a) = false ->
  ~ In (call_export_tif bands nd) log.
Proof.
  subst log. revert bands nd. wp_run.
  all: intros bands nd Ht HIn; try congruence; log_cases HIn.
Qed.

(** When [validate_inputs] raises, the run raises the same exception and
    has neither searched nor worked. *)
Lemma validation_failure_stops e :
  (forall w', fst (validate_inputs H (sort_method a) (mosaic_method a)
                     (no_data_threshold a) (required_bands a) w')
              = Raised e) ->
  (exists e', outcome = Raised e'
              /\ (In call_validate_inputs log -> e' = e))
  /\ no_search log /\ no_work log
  /\ (forall out_path b, ~ In (call_exists out_path b) log).
Proof.
  intros Hv. subst outcome log. wp_run.
  all: try match goal with
       | E : validate_inputs _ _ _ _ _ ?x = (Returned _, _) |- _ =>
           specialize (Hv x); rewrite E in Hv; discriminate Hv
       end.
  - match goal with
    | E : validate_inputs _ _ _ _ _ ?x = (Raised ?e0, _) |- _ =>
        specialize (Hv x); rewrite E in Hv; injection Hv as ->
    end.
    repeat split; eauto.
    intros out_path b HIn; log_cases HIn.
  - repeat split; eauto.
    + eexists; split; [reflexivity | intros HIn; log_cases HIn].
    + intros out_path b HIn; log_cases HIn.
Qed.

(** When the tile lookup returns, the configuration check is made. *)
Lemma tile_found_reaches_validation bounds w0 :
  get_extent_from_grid_id H (grid_id a) w = (Returned bounds, w0) ->
  In call_validate_inputs log.
Proof.
  intros Hext. subst log. wp_run.
  all: try (simpl; tauto).
  rewrite Hext in E. discriminate E.
Qed.

End Runs.

Lemma no_work_not_in {Path Item : Type} (log : list (@Call Path Item)) c :
  no_work log -> is_work c = true -> ~ In c log.
Proof.
  unfold no_work. intros Hn Hc HIn.
  rewrite forallb_forall in Hn. apply Hn in HIn.
  rewrite Hc in HIn. discriminate HIn.
Qed.

Lemma no_search_not_in {Path Item : Type} (log : list (@Call Path Item)) r :
  no_search log -> ~ In (call_search_for_items r) log.
Proof.
  unfold no_search. intros Hn HIn.
  rewrite forallb_forall in Hn. apply Hn in HIn. discriminate HIn.
Qed.

Section Claims.
Context {World Bounds Date Path Item Annotated SortedItems Array Profile : Type}.
Variable H :
  @Helpers World Bounds Date Path Item Annotated SortedItems Array Profile.
Variable a : Args.
Variable w : World.

(** C5, amended.  Lines 166-182: whenever [mosaic] hands a raster to
    [export_tif], the band labels are exactly Red, Green, Blue and the
    nodata value is [None] if ["visual"] is among [required_bands], and
    otherwise the requested bands are kept and a nodata value is present;
    every run that went through the pipeline and returned the written path
    has made that export call; and a call without an output directory
    exports nothing, so that it hands labels and a nodata value to
    nothing. *)
Theorem visual_export_relabelled :
  (forall bands nd,
      In (call_export_tif bands nd) (calls (snd (run H a w))) ->
      (In "visual" (required_bands a) ->
       bands = ["Red"; "Green"; "Blue"] /\ nd = None)
      /\ (~ In "visual" (required_bands a) ->
          bands = required_bands a /\ exists v, nd = Some v))
  /\ (forall out_path,
         fst (run H a w) = Returned (Written out_path) ->
         In call_download_bands_pool (calls (snd (run H a w))) ->
         exists bands nd,
           In (call_export_tif bands nd) (calls (snd (run H a w))))
  /\ (truthy (output_dir a) = false ->
      forall bands nd,
        ~ In (call_export_tif bands nd) (calls (snd (run H a w)))).
Proof.
  split; [| split].
  - intros bands nd HIn. apply export_calls_labelled in HIn.
    unfold export_labels in HIn. split; intros Hv.
    + apply str_in_true in Hv. rewrite Hv in HIn.
      injection HIn as -> ->. split; reflexivity.
    + apply str_in_false in Hv. rewrite Hv in HIn.
      injection HIn as -> ->. split; [reflexivity | eauto].
  - intros out_path HR HIn. do 2 eexists.
    eapply written_after_download_exports; eassumption.
  - intros Hdir bands nd. now apply in_memory_no_export.
Qed.

(** C10.  Without ["visual"] among [required_bands], the nodata value
    passed to [export_tif] is the integer 0 and the band list is passed
    unchanged, whatever the bands are. *)
Theorem plain_export_nodata_zero bands nd :
  ~ In "visual" (required_bands a) ->
  In (call_export_tif bands nd) (calls (snd (run H a w))) ->
  nd = Some 0%Z /\ bands = required_bands a.
Proof.
  intros Hv HIn. apply export_calls_labelled in HIn.
  unfold export_labels in HIn. apply str_in_false in Hv.
  rewrite Hv in HIn. injection HIn as -> ->. split; reflexivity.
Qed.

(** C6.  Lines 144-151: when the catalog search answers with zero scenes,
    [mosaic] raises the "No scenes found" exception, and the log holds no
    annotate, sort, fetch/mask/composite or export call. *)
Theorem empty_catalog_fails_before_work :
  In (call_search_for_items (Returned [])) (calls (snd (run H a w))) ->
  (exists start_date end_date,
      fst (run H a w)
      = Raised (no_scenes H (grid_id a) start_date end_date))
  /\ no_work (calls (snd (run H a w)))
  /\ ~ In call_download_bands_pool (calls (snd (run H a w))).
Proof.
  assert (Hrun :
    In (call_search_for_items (Returned [])) (calls (snd (run H a w))) ->
    (exists start_date end_date,
        fst (run H a w)
        = Raised (no_scenes H (grid_id a) start_date end_date))
    /\ no_work (calls (snd (run H a w)))).
  { wp_run.
    all: intros HIn; log_cases HIn.
    all: try (injection HIn as ->; discriminate Hb0).
    all: try (injection HIn as ->; discriminate Hb1).
    all: split; [eexists; eexists; reflexivity | reflexivity]. }
  intros HIn. destruct (Hrun HIn) as [Hraise Hnone].
  repeat split; [exact Hraise | exact Hnone |].
  now apply no_work_not_in.
Qed.

(** C9.  Lines 129-142: the overwrite policy is settled before the
    pipeline: once the computed export path is found to exist and
    [overwrite] is false, [mosaic] returns that path, and the log holds
    no search and no annotate, sort, fetch/mask/composite or export
    call. *)
Theorem existing_output_returned_untouched out_path :
  overwrite a = false ->
  In (call_exists out_path true) (calls (snd (run H a w))) ->
  fst (run H a w) = Returned (Written out_path)
  /\ no_search (calls (snd (run H a w)))
  /\ no_work (calls (snd (run H a w))).
Proof.
  revert out_path. wp_run.
  all: intros out_path Ho HIn; log_cases HIn.
  all: try (injection HIn as <- Hex).
  all: try (rewrite Ho, Hex in Hb0; discriminate Hb0).
  repeat split.
Qed.


(** When the tile lookup returns, the configuration check is reached. *)
Lemma validation_reached :
  (forall w', exists b w'',
        get_extent_from_grid_id H (grid_id a) w' = (Returned b, w'')) ->
  In call_validate_inputs (calls (snd (run H a w))).
Proof.
  intros Hext. wp_run; simpl; try tauto.
  match goal with
  | E : get_extent_from_grid_id _ _ ?x = (Raised _, _) |- _ =>
      destruct (Hext x) as (b & w'' & Hb); rewrite Hb in E; discriminate E
  end.
Qed.

End Claims.

Import Examples.

(** *** Runs on concrete helpers *)

(** In-memory call: the array and profile of [download_bands_pool] come back
    unchanged and nothing is exported. *)
Example run_in_memory :
  run (stub_helpers ["S2A_20200105"] false) args_in_memory tt
  = (Returned (InMemory 7 9),
     {| world := tt;
        calls := [call_get_extent_from_grid_id; call_validate_inputs;
                  call_define_dates;
                  call_search_for_items (Returned ["S2A_20200105"]);
                  call_add_item_info; call_sort_items;
                  call_download_bands_pool] |}).
Proof. reflexivity. Qed.

(** Call with an output directory and no file there yet. *)
Example run_to_disk :
  run (stub_helpers ["S2A_20200105"] false) args_to_disk tt
  = (Returned (Written "50HMH.tif"),
     {| world := tt;
        calls := [call_get_extent_from_grid_id; call_validate_inputs;
                  call_define_dates; call_get_output_path;
                  call_exists "50HMH.tif" false;
                  call_search_for_items (Returned ["S2A_20200105"]);
                  call_add_item_info; call_sort_items;
                  call_download_bands_pool;
                  call_export_tif ["B04"; "B03"; "B02"; "B08"] (Some 0%Z)] |}).
Proof. reflexivity. Qed.

(** The file is there and [overwrite] is false. *)
Example run_skips_existing :
  run (stub_helpers ["S2A_20200105"] true) args_to_disk tt
  = (Returned (Written "50HMH.tif"),
     {| world := tt;
        calls := [call_get_extent_from_grid_id; call_validate_inputs;
                  call_define_dates; call_get_output_path;
                  call_exists "50HMH.tif" true] |}).
Proof. reflexivity. Qed.

(** The file is there and [overwrite] is true: the pipeline runs. *)
Example run_overwrites_existing :
  fst (run (stub_helpers ["S2A_20200105"] true) args_visual tt)
  = Returned (Written "50HMH.tif")
  /\ In (call_export_tif ["Red"; "Green"; "Blue"] None)
        (calls (snd (run (stub_helpers ["S2A_20200105"] true) args_visual tt))).
Proof. split; [reflexivity | simpl; tauto]. Qed.

(** No scene in the catalog. *)
Example run_no_scenes :
  run (stub_helpers [] false) args_to_disk tt
  = (Raised (PyExn "Exception"
       "No scenes found for 50HMH between 2020-01-01 and 2020-02-01"),
     {| world := tt;
        calls := [call_get_extent_from_grid_id; call_validate_inputs;
                  call_define_dates; call_get_output_path;
                  call_exists "50HMH.tif" false;
                  call_search_for_items (Returned [])] |}).
Proof. reflexivity. Qed.

(** An unknown sort method. *)
Example run_bad_sort_method :
  run (stub_helpers ["S2A_20200105"] false) args_bad_sort tt
  = (Raised (Validation.configuration_error "unsupported sort method"),
     {| world := tt;
        calls := [call_get_extent_from_grid_id; call_validate_inputs] |}).
Proof. reflexivity. Qed.

(** [output_dir = ""] is false in [if output_dir:], so the call is an
    in-memory call. *)
Example empty_output_dir_is_in_memory :
  truthy (Some (DirStr "")) = false /\ truthy (Some (DirPath "")) = true.
Proof. split; reflexivity. Qed.

Lemma visual_export_relabelled_witness :
  exists bands nd,
    In (call_export_tif bands nd)
       (calls (snd (run (stub_helpers ["S2A_20200105"] false) args_visual tt)))
    /\ bands = ["Red"; "Green"; "Blue"] /\ nd = None.
Proof.
  destruct (visual_export_relabelled
              (stub_helpers ["S2A_20200105"] false) args_visual tt)
    as [Hlabels [Hcalled _]].
  destruct (Hcalled "50HMH.tif" eq_refl) as (bands & nd & HIn).
  - simpl. tauto.
  - exists bands, nd. split; [exact HIn |].
    apply (proj1 (Hlabels bands nd HIn)). simpl. tauto.
Defined.

Lemma plain_export_nodata_zero_witness :
  Some 0%Z = Some 0%Z
  /\ ["B04"; "B03"; "B02"; "B08"] = required_bands args_to_disk.
Proof.
  apply (plain_export_nodata_zero
           (stub_helpers ["S2A_20200105"] false) args_to_disk tt).
  - simpl. intros Hv.
    repeat (destruct Hv as [Hv | Hv]; [discriminate Hv |]). exact Hv.
  - simpl. tauto.
Defined.

Lemma empty_catalog_fails_before_work_witness :
  (exists start_date end_date,
      fst (run (stub_helpers [] false) args_in_memory tt)
      = Raised (no_scenes (stub_helpers [] false) "50HMH"
                  start_date end_date))
  /\ no_work (calls (snd (run (stub_helpers [] false) args_in_memory tt)))
  /\ ~ In call_download_bands_pool
         (calls (snd (run (stub_helpers [] false) args_in_memory tt))).
Proof.
  apply (empty_catalog_fails_before_work
           (stub_helpers [] false) args_in_memory tt).
  simpl. tauto.
Defined.

Lemma existing_output_returned_untouched_witness :
  fst (run (stub_helpers ["S2A_20200105"] true) args_to_disk tt)
  = Returned (Written "50HMH.tif")
  /\ no_search (calls (snd (run (stub_helpers ["S2A_20200105"] true)
                              args_to_disk tt)))
  /\ no_work (calls (snd (run (stub_helpers ["S2A_20200105"] true)
                            args_to_disk tt))).
Proof.
  apply (existing_output_returned_untouched
           (stub_helpers ["S2A_20200105"] true) args_to_disk tt).
  - reflexivity.
  - simpl. tauto.
Defined.


(** An in-memory call for the visual composite band returns the pair of
    [download_bands_pool] as it is: no band labels and no nodata value are
    handed to anything. *)
Lemma visual_in_memory_call_relabels_nothing :
  In "visual" (required_bands args_visual_in_memory)
  /\ fst (run (stub_helpers ["S2A_20200105"] false) args_visual_in_memory tt)
     = Returned (InMemory 7 9)
  /\ forall bands nd,
       ~ In (call_export_tif bands nd)
            (calls (snd (run (stub_helpers ["S2A_20200105"] false)
                           args_visual_in_memory tt))).
Proof.
  split; [simpl; tauto |]. split; [reflexivity |].
  intros bands nd HIn. simpl in HIn.
  repeat (destruct HIn as [HIn | HIn]; [discriminate HIn |]).
  exact HIn.
Qed.


(** The existence check of line 141 raises: the exception leaves [mosaic]
    and nothing is searched. *)
Example run_locked_directory :
  run (blocked_helpers false true) args_to_disk tt
  = (Raised (PyExn "PermissionError" "permission denied"),
     {| world := tt;
        calls := [call_get_extent_from_grid_id; call_validate_inputs;
                  call_define_dates; call_get_output_path;
                  call_exists_raised "50HMH.tif"] |}).
Proof. reflexivity. Qed.

End CoordinatorFacts.

(* ===================================================================== *)
(** * Properties of the scene sorter *)
(* ===================================================================== *)

Module SceneSorterFacts.
Import Py SceneSorter.

(** *** The order on identifiers *)

Lemma ascii_compare_N x y :
  Ascii.compare x y = N.compare (N_of_ascii x) (N_of_ascii y).
Proof. reflexivity. Qed.

Lemma string_leb_refl s : String.leb s s = true.
Proof.
  unfold String.leb. replace (String.compare s s) with Eq; [reflexivity |].
  induction s as [| x s IH]; simpl; [reflexivity |].
  rewrite ascii_compare_N, N.compare_refl. exact IH.
Qed.

Lemma string_leb_trans s1 : forall s2 s3,
  String.leb s1 s2 = true -> String.leb s2 s3 = true ->
  String.leb s1 s3 = true.
Proof.
  unfold String.leb.
  induction s1 as [| x s1 IH]; intros [| y s2] [| z s3]; simpl;
    try reflexivity; try discriminate.
  rewrite !ascii_compare_N.
  destruct (N.compare_spec (N_of_ascii x) (N_of_ascii y)) as [Hxy | Hxy | Hxy];
    destruct (N.compare_spec (N_of_ascii y) (N_of_ascii z)) as [Hyz | Hyz | Hyz];
    destruct (N.compare_spec (N_of_ascii x) (N_of_ascii z)) as [Hxz | Hxz | Hxz];
    try reflexivity; try discriminate; try lia.
  apply IH.
Qed.

Section Order.
Variable expected_valid : SceneItem -> Z.
Variable p : Policy.

Let key := sort_key expected_valid p.
Let le := scene_le expected_valid p.

Lemma primary_compare_key a b :
  primary_compare expected_valid p a b = Z.compare (key a) (key b).
Proof.
  unfold primary_compare, key, sort_key. destruct p; try reflexivity;
    now rewrite Z.compare_opp.
Qed.

Lemma scene_leb_spec a b :
  scene_leb expected_valid p a b = true <->
  (key a < key b)%Z
  \/ (key a = key b /\ String.leb (identifier a) (identifier b) = true).
Proof.
  unfold scene_leb, scene_compare, String.leb.
  rewrite primary_compare_key. fold key.
  destruct (Z.compare_spec (key a) (key b)) as [He | Hl | Hg].
  - destruct (String.compare (identifier a) (identifier b));
      split; auto; intros [Hc | [_ Hc]]; try lia; discriminate.
  - split; auto.
  - split; [discriminate |]. intros [Hc | [Hc _]]; lia.
Qed.

Lemma scene_leb_total a b : le a b \/ le b a.
Proof.
  unfold le, scene_le. rewrite !scene_leb_spec.
  destruct (Z.lt_trichotomy (key a) (key b)) as [Hl | [He | Hg]]; auto.
  destruct (String.leb_total (identifier a) (identifier b)); auto.
Qed.

Lemma scene_leb_trans a b c : le a b -> le b c -> le a c.
Proof.
  unfold le, scene_le. rewrite !scene_leb_spec.
  intros [H1 | [H1 S1]] [H2 | [H2 S2]]; try (left; lia).
  right. split; [lia |]. eapply string_leb_trans; eassumption.
Qed.

Lemma scene_leb_antisym a b :
  le a b -> le b a -> key a = key b /\ identifier a = identifier b.
Proof.
  unfold le, scene_le. rewrite !scene_leb_spec.
  intros [H1 | [H1 S1]] [H2 | [H2 S2]]; try lia.
  split; [exact H1 |]. now apply String.leb_antisym.
Qed.

Lemma scene_leb_false a b :
  scene_leb expected_valid p a b = false -> le b a.
Proof.
  intros Hf. destruct (scene_leb_total a b) as [Hab | Hba];
    [unfold le, scene_le in Hab; congruence | exact Hba].
Qed.

(** *** Insertion sort *)

Lemma insert_perm x l : Permutation (x :: l) (insert expected_valid p x l).
Proof.
  induction l as [| y l IH]; simpl; [reflexivity |].
  destruct (scene_leb expected_valid p x y); [reflexivity |].
  rewrite perm_swap. now apply perm_skip.
Qed.

Lemma sort_perm l : Permutation l (sort expected_valid p l).
Proof.
  induction l as [| x l IH]; simpl; [constructor |].
  rewrite <- insert_perm. now apply perm_skip.
Qed.

Lemma insert_sorted x l :
  StronglySorted le l -> StronglySorted le (insert expected_valid p x l).
Proof.
  induction 1 as [| y l Hs IH Hall]; simpl.
  - repeat constructor.
  - destruct (scene_leb expected_valid p x y) eqn:Hxy.
    + constructor; [now constructor |].
      constructor; [exact Hxy |].
      eapply Forall_impl; [| exact Hall].
      intros z Hyz. eapply scene_leb_trans; eassumption.
    + constructor; [exact IH |].
      eapply Permutation_Forall; [apply insert_perm |].
      constructor; [now apply scene_leb_false | exact Hall].
Qed.

Lemma sort_sorted l : StronglySorted le (sort expected_valid p l).
Proof.
  induction l as [| x l IH]; simpl; [constructor | now apply insert_sorted].
Qed.

(** In a sorted list, an earlier element is below a later one. *)
Lemma sorted_positions l :
  StronglySorted le l ->
  forall i j a b, i < j ->
    nth_error l i = Some a -> nth_error l j = Some b -> le a b.
Proof.
  induction 1 as [| x l Hs IH Hall]; intros i j a b Hij Ha Hb.
  - destruct i; discriminate Ha.
  - destruct j as [| j]; [lia |]. simpl in Hb.
    destruct i as [| i]; simpl in Ha.
    + injection Ha as <-. rewrite Forall_forall in Hall.
      apply Hall. eapply nth_error_In; eassumption.
    + eapply (IH i j); [lia | eassumption | eassumption].
Qed.

(** *** A sorted arrangement is unique when identifiers are distinct *)

Lemma injective_on_nodup {A B} (f : A -> B) l x y :
  NoDup (map f l) -> In x l -> In y l -> f x = f y -> x = y.
Proof.
  induction l as [| z l IH]; simpl; [tauto |].
  intros Hnd Hx Hy Hf. inversion Hnd as [| ? ? Hnin Hnd']; subst.
  destruct Hx as [-> | Hx], Hy as [-> | Hy]; auto.
  - exfalso. apply Hnin. rewrite Hf. now apply in_map.
  - exfalso. apply Hnin. rewrite <- Hf. now apply in_map.
Qed.

Lemma sorted_perm_unique l1 : forall l2,
  NoDup (map identifier l1) ->
  StronglySorted le l1 -> StronglySorted le l2 -> Permutation l1 l2 ->
  l1 = l2.
Proof.
  induction l1 as [| x l1 IH]; intros l2 Hnd Hs1 Hs2 Hp.
  - apply Permutation_nil in Hp. now subst.
  - destruct l2 as [| y l2];
      [apply Permutation_sym, Permutation_nil in Hp; discriminate Hp |].
    inversion Hs1 as [| ? ? Hs1' Hall1]; subst.
    inversion Hs2 as [| ? ? Hs2' Hall2]; subst.
    rewrite Forall_forall in Hall1, Hall2.
    assert (Hxy : x = y).
    { assert (Hyin : In y (x :: l1))
        by (eapply Permutation_in;
            [apply Permutation_sym; exact Hp | now left]).
      assert (Hxin : In x (y :: l2))
        by (eapply Permutation_in; [exact Hp | now left]).
      destruct Hyin as [-> | Hyin]; [reflexivity |].
      destruct Hxin as [-> | Hxin]; [reflexivity |].
      apply (injective_on_nodup identifier (x :: l1));
        [exact Hnd | now left | now right |].
      apply scene_leb_antisym; auto. }
    subst y. f_equal.
    apply IH; auto.
    + simpl in Hnd. now inversion Hnd.
    + eapply Permutation_cons_inv; exact Hp.
Qed.

Lemma sort_order_independent l l' :
  NoDup (map identifier l) -> Permutation l l' ->
  sort expected_valid p l' = sort expected_valid p l.
Proof.
  intros Hnd Hp. symmetry. apply sorted_perm_unique.
  - eapply Permutation_NoDup; [| exact Hnd].
    apply Permutation_map, sort_perm.
  - apply sort_sorted.
  - apply sort_sorted.
  - rewrite <- !sort_perm. exact Hp.
Qed.

End Order.

(** C8.  For every list of annotated scenes and every supported policy the
    sorter orders by a total order (primary key, then scene identifier):
    the relation is total and transitive, the output is a rearrangement of
    the input in which every earlier scene is below every later one, scenes
    with equal primary keys appear in identifier order, and the output does
    not depend on the order the catalog returned scenes with distinct
    identifiers in, so that repeated runs give the same order. *)
Theorem sort_items_total_order (expected_valid : SceneItem -> Z)
    (p : Policy) (scenes : list SceneItem) :
  let le := scene_le expected_valid p in
  let sorted := sort expected_valid p scenes in
  (forall a b, le a b \/ le b a)
  /\ (forall a b c, le a b -> le b c -> le a c)
  /\ Permutation scenes sorted
  /\ StronglySorted le sorted
  /\ (forall i j a b,
         i < j -> nth_error sorted i = Some a -> nth_error sorted j = Some b ->
         primary_compare expected_valid p a b = Eq ->
         String.leb (identifier a) (identifier b) = true)
  /\ (forall scenes',
         NoDup (map identifier scenes) -> Permutation scenes scenes' ->
         sort expected_valid p scenes' = sorted).
Proof.
  intros le sorted. subst le sorted.
  split; [apply scene_leb_total |].
  split; [apply scene_leb_trans |].
  split; [apply sort_perm |].
  split; [apply sort_sorted |].
  split.
  - intros i j a b Hij Ha Hb Hkey.
    pose proof (sorted_positions expected_valid p _
                  (sort_sorted expected_valid p scenes) i j a b Hij Ha Hb)
      as Hle.
    unfold scene_le, scene_leb, scene_compare in Hle.
    rewrite Hkey in Hle. exact Hle.
  - intros scenes' Hnd Hp. now apply sort_order_independent.
Qed.

Import Examples.

Lemma sort_items_total_order_witness :
  sort clear_percent oldest [scene_y; scene_x; scene_z]
  = sort clear_percent oldest [scene_x; scene_y; scene_z].
Proof.
  refine (proj2 (proj2 (proj2 (proj2 (proj2
    (sort_items_total_order clear_percent oldest
       [scene_x; scene_y; scene_z])))))
    [scene_y; scene_x; scene_z] _ _).
  - repeat constructor; simpl; intuition discriminate.
  - apply perm_swap.
Defined.

(** The oldest scene first; the two scenes acquired together in identifier
    order. *)
Example sort_oldest_example :
  sort_items clear_percent [scene_x; scene_y; scene_z] "oldest"
  = Returned [scene_z; scene_y; scene_x].
Proof. reflexivity. Qed.

Example sort_newest_example :
  sort_items clear_percent [scene_x; scene_y; scene_z] "newest"
  = Returned [scene_y; scene_x; scene_z].
Proof. reflexivity. Qed.

(** The clearer scenes first. *)
Example sort_valid_data_example :
  sort_items clear_percent [scene_z; scene_x; scene_y] "valid_data"
  = Returned [scene_y; scene_x; scene_z].
Proof. reflexivity. Qed.

(** [sort_items] runs that sort for each of the three policy names and
    rejects any other name. *)
Lemma sort_items_supported expected_valid scenes s :
  match parse_policy s with
  | Some p => sort_items expected_valid scenes s
              = Returned (sort expected_valid p scenes)
  | None => exists e, sort_items expected_valid scenes s = Raised e
  end.
Proof.
  unfold sort_items. destruct (parse_policy s); eauto.
Qed.

End SceneSorterFacts.

(* ===================================================================== *)
(** * Properties of the cloud masker *)
(* ===================================================================== *)

Module CloudMaskerFacts.
Import Raster CloudMasker.

Section Batching.
Variable detector : Precision -> list BandStack -> list (Array2 PixelClass).

(** Gluing the batches back together gives the stacks, in order. *)
Lemma batches_concat fuel : forall batch_size (stacks : list BandStack),
  0 < batch_size -> length stacks <= fuel ->
  concat (batches fuel batch_size stacks) = stacks.
Proof.
  induction fuel as [| fuel IH]; intros n stacks Hn Hlen.
  - destruct stacks; [reflexivity | simpl in Hlen; lia].
  - destruct stacks as [| s stacks]; [reflexivity |].
    cbn [batches concat]. rewrite IH.
    + apply firstn_skipn.
    + exact Hn.
    + rewrite length_skipn. cbn [length] in *. lia.
Qed.

(** No batch is larger than the batch size. *)
Lemma batches_bounded fuel : forall batch_size (stacks : list BandStack),
  Forall (fun batch => length batch <= batch_size)
         (batches fuel batch_size stacks).
Proof.
  induction fuel as [| fuel IH]; intros n stacks; [constructor |].
  destruct stacks as [| s stacks]; [constructor |].
  cbn [batches]. constructor; [| apply IH].
  rewrite length_firstn. lia.
Qed.

(** With a detector that meets the determinism requirement, the masks of
    the batches are the masks of their stacks alone. *)
Lemma infer_batches_alone precision (parts : list (list BandStack)) :
  batch_independent detector precision ->
  concat (map (infer_batch detector precision) parts)
  = map (mask_alone detector precision) (concat parts).
Proof.
  intros Hind. induction parts as [| batch parts IH]; [reflexivity |].
  cbn [map concat]. rewrite IH, Hind, map_app. reflexivity.
Qed.

Lemma mask_batch_alone stacks batch_size precision :
  batch_independent detector precision ->
  0 < batch_size ->
  mask_batch detector stacks batch_size precision
  = Some (map (mask_alone detector precision) stacks).
Proof.
  intros Hind Hn. unfold mask_batch.
  destruct batch_size as [| n]; [lia |].
  rewrite infer_batches_alone by exact Hind.
  rewrite batches_concat; [reflexivity | lia | lia].
Qed.

End Batching.


Import Examples.

Lemma stackwise_detector_independent precision :
  batch_independent stackwise_detector precision.
Proof.
  intros batch. unfold infer_batch, stackwise_detector.
  induction batch as [| s batch IH]; [reflexivity |].
  cbn [map]. rewrite IH. reflexivity.
Qed.



End CloudMaskerFacts.

(* ===================================================================== *)
(** * Properties of the compositor *)
(* ===================================================================== *)

Module CompositorFacts.
Import Raster Compositor.

(** *** The grid *)

Lemma in_pixels g r c : In (r, c) (pixels g) <-> r < height g /\ c < width g.
Proof.
  unfold pixels. rewrite in_prod_iff, !in_seq. lia.
Qed.

Lemma count_invalid_ext g acc acc' :
  (forall r c, r < height g -> c < width g ->
               acc_finalized acc r c = acc_finalized acc' r c) ->
  count_invalid g acc = count_invalid g acc'.
Proof.
  intros Hext. unfold count_invalid. f_equal.
  apply filter_ext_in. intros [r c] HIn. simpl.
  apply in_pixels in HIn. now rewrite Hext.
Qed.

(** The invalid fraction is never negative. *)
Lemma fraction_invalid_nonneg g acc : (0 <= fraction_invalid g acc)%Q.
Proof.
  unfold fraction_invalid, Qdiv.
  apply Qmult_le_0_compat.
  - unfold Qle, inject_Z. simpl. lia.
  - apply Qinv_le_0_compat. unfold Qle, inject_Z. simpl. lia.
Qed.

(** With threshold 0 the fold never stops. *)
Lemma continue_at_zero g acc : continue_fold (Some 0%Q) g acc = true.
Proof.
  unfold continue_fold. apply Qle_bool_iff, fraction_invalid_nonneg.
Qed.

(** *** The fold and its early exit *)

Lemma fold_scenes_prefix m t g : forall scenes acc,
  fold_scenes m t g acc scenes
  = fold_left (fold_scene m)
      (firstn (scenes_folded m t g acc scenes) scenes) acc.
Proof.
  induction scenes as [| s rest IH]; intros acc; simpl; [reflexivity |].
  destruct (continue_fold t g (fold_scene m acc s)); simpl;
    [apply IH | reflexivity].
Qed.

Lemma scenes_folded_disabled m g : forall scenes acc,
  scenes_folded m None g acc scenes = length scenes.
Proof.
  induction scenes as [| s rest IH]; intros acc; simpl;
    [reflexivity | now rewrite IH].
Qed.

Lemma scenes_folded_zero m g : forall scenes acc,
  scenes_folded m (Some 0%Q) g acc scenes = length scenes.
Proof.
  induction scenes as [| s rest IH]; intros acc; [reflexivity |].
  cbn [scenes_folded length]. rewrite continue_at_zero, IH. reflexivity.
Qed.

Lemma fold_scenes_all m t g scenes acc :
  scenes_folded m t g acc scenes = length scenes ->
  fold_scenes m t g acc scenes = fold_left (fold_scene m) scenes acc.
Proof.
  intros Hall. rewrite fold_scenes_prefix, Hall, firstn_all. reflexivity.
Qed.

Lemma fold_scenes_disabled m g scenes acc :
  fold_scenes m None g acc scenes = fold_left (fold_scene m) scenes acc.
Proof. apply fold_scenes_all, scenes_folded_disabled. Qed.

(** *** The [first] rule *)

Lemma first_step_keeps acc s b r c :
  acc_finalized acc r c = true ->
  acc_winner (fold_scene first acc s) b r c = acc_winner acc b r c
  /\ acc_finalized (fold_scene first acc s) r c = true.
Proof. intros Hf. simpl. now rewrite Hf. Qed.

Lemma first_fold_finalized r c : forall scenes acc,
  acc_finalized (fold_left (fold_scene first) scenes acc) r c
  = acc_finalized acc r c || existsb (fun s => pixel_valid s r c) scenes.
Proof.
  induction scenes as [| s rest IH]; intros acc; simpl.
  - now rewrite orb_false_r.
  - rewrite IH. simpl. now rewrite orb_assoc.
Qed.

Lemma first_fold_winner b r c : forall scenes acc,
  acc_winner (fold_left (fold_scene first) scenes acc) b r c
  = if acc_finalized acc r c then acc_winner acc b r c
    else match first_valid scenes r c with
         | Some s => pixel_value s b r c
         | None => acc_winner acc b r c
         end.
Proof.
  unfold first_valid.
  induction scenes as [| s rest IH]; intros acc; simpl.
  - now destruct (acc_finalized acc r c).
  - rewrite IH. simpl.
    destruct (acc_finalized acc r c); simpl; [reflexivity |].
    destruct (pixel_valid s r c); reflexivity.
Qed.

Lemma first_valid_exists scenes r c :
  existsb (fun s => pixel_valid s r c) scenes = true <->
  first_valid scenes r c <> None.
Proof.
  unfold first_valid. induction scenes as [| s rest IH]; simpl.
  - split; [discriminate | congruence].
  - destruct (pixel_valid s r c); simpl; [split; congruence | exact IH].
Qed.

(** Folding a list of scenes from the empty accumulator assigns the value
    of the first valid scene, or the nodata sentinel. *)
Lemma first_fold_value nodata scenes b r c :
  finalize nodata first
    (fold_left (fold_scene first) scenes empty_accumulator) b r c
  = first_value nodata scenes b r c.
Proof.
  unfold finalize, first_value.
  rewrite first_fold_finalized, first_fold_winner. simpl.
  destruct (first_valid scenes r c) as [s |] eqn:Hfv.
  - assert (He : existsb (fun s => pixel_valid s r c) scenes = true)
      by (apply first_valid_exists; congruence).
    now rewrite He.
  - destruct (existsb (fun s => pixel_valid s r c) scenes) eqn:He;
      [| reflexivity].
    apply first_valid_exists in He. congruence.
Qed.

(** The first valid scene of a prefix is the first valid scene. *)
Lemma first_valid_prefix r c : forall scenes k s,
  first_valid (firstn k scenes) r c = Some s ->
  first_valid scenes r c = Some s.
Proof.
  unfold first_valid.
  induction scenes as [| x rest IH]; intros [| k] s; simpl;
    try discriminate.
  destruct (pixel_valid x r c); [easy | apply IH].
Qed.

Lemma first_valid_prefix_none r c scenes k :
  first_valid scenes r c = None -> first_valid (firstn k scenes) r c = None.
Proof.
  intros Hn. destruct (first_valid (firstn k scenes) r c) as [s |] eqn:Hp;
    [| reflexivity].
  apply first_valid_prefix in Hp. congruence.
Qed.

(** *** The [mean] rule *)

Lemma mean_fold_sum b r c : forall scenes acc,
  acc_sum (fold_left (fold_scene mean) scenes acc) b r c
  = (acc_sum acc b r c
     + fold_right (fun s z => (pixel_value s b r c + z)%Z) 0%Z
         (contributors scenes r c))%Z.
Proof.
  unfold contributors.
  induction scenes as [| s rest IH]; intros acc; simpl; [lia |].
  rewrite IH. simpl. destruct (pixel_valid s r c); simpl; lia.
Qed.

Lemma mean_fold_count b r c : forall scenes acc,
  acc_count (fold_left (fold_scene mean) scenes acc) b r c
  = acc_count acc b r c + length (contributors scenes r c).
Proof.
  unfold contributors.
  induction scenes as [| s rest IH]; intros acc; simpl; [lia |].
  rewrite IH. simpl. destruct (pixel_valid s r c); simpl; lia.
Qed.

(** Folding a list of scenes from the empty accumulator assigns the
    average of the contributing scenes, or the nodata sentinel. *)
Lemma mean_fold_value nodata scenes b r c :
  finalize nodata mean
    (fold_left (fold_scene mean) scenes empty_accumulator) b r c
  = mean_value nodata scenes b r c.
Proof.
  unfold finalize, mean_value.
  rewrite mean_fold_count, mean_fold_sum. simpl.
  destruct (contributors scenes r c) as [| s rest]; reflexivity.
Qed.

Lemma contributors_perm r c scenes scenes' :
  Permutation scenes scenes' ->
  Permutation (contributors scenes r c) (contributors scenes' r c).
Proof.
  unfold contributors. induction 1 as [| s l l' Hp IH | s s' l | l l' l'' H1 IH1 H2 IH2];
    simpl.
  - constructor.
  - destruct (pixel_valid s r c); [now constructor | exact IH].
  - destruct (pixel_valid s r c), (pixel_valid s' r c);
      try reflexivity. apply perm_swap.
  - etransitivity; eassumption.
Qed.

Lemma sum_perm (f : MaskedStack -> Z) l l' :
  Permutation l l' ->
  fold_right (fun s z => (f s + z)%Z) 0%Z l
  = fold_right (fun s z => (f s + z)%Z) 0%Z l'.
Proof.
  induction 1; simpl; lia.
Qed.

Lemma mean_value_perm nodata scenes scenes' b r c :
  Permutation scenes scenes' ->
  mean_value nodata scenes b r c = mean_value nodata scenes' b r c.
Proof.
  intros Hp. unfold mean_value.
  pose proof (contributors_perm r c _ _ Hp) as Hc.
  pose proof (Permutation_length Hc) as Hlen.
  pose proof (sum_perm (fun s => pixel_value s b r c) _ _ Hc) as Hsum.
  destruct (contributors scenes r c) as [| s rest],
           (contributors scenes' r c) as [| s' rest'];
    try discriminate Hlen; [reflexivity |].
  rewrite Hsum. simpl in Hlen. injection Hlen as ->. reflexivity.
Qed.

(** A pixel that no scene of the list contributes to gets no contribution
    from a prefix either. *)
Lemma contributors_prefix_nil r c : forall scenes k,
  contributors scenes r c = [] -> contributors (firstn k scenes) r c = [].
Proof.
  unfold contributors.
  induction scenes as [| s rest IH]; intros [| k] Hnil; try reflexivity.
  simpl in *. destruct (pixel_valid s r c); [discriminate Hnil |].
  now apply IH.
Qed.

(** Under [mean] a pixel with no contributing scene is nodata, whatever the
    threshold. *)
Lemma mean_no_contributor_nodata nodata g t scenes b r c :
  contributors scenes r c = [] ->
  fst (composite nodata g scenes mean t) b r c = nodata.
Proof.
  intros Hnil. unfold composite. cbn [fst].
  rewrite fold_scenes_prefix, mean_fold_value. unfold mean_value.
  now rewrite contributors_prefix_nil.
Qed.

(** *** The claims *)

(** C2, amended.  Under [first], on every band and every pixel: the output
    is the value of the first scene, among those folded before the early
    exit, whose mask marks the pixel valid, and the nodata sentinel if there
    is none; with the early exit disabled or the threshold 0 every scene is
    folded and the output is the value of the first scene in sort order
    whose mask marks the pixel valid; a pixel valid in no scene is nodata. *)
Theorem first_takes_first_valid (nodata : Q) (g : Grid)
    (scenes : list MaskedStack) (t : option Q) (b r c : nat) :
  let out := fst (composite nodata g scenes first t) in
  let seen :=
    firstn (scenes_folded first t g empty_accumulator scenes) scenes in
  out b r c = first_value nodata seen b r c
  /\ (t = None \/ t = Some 0%Q ->
      seen = scenes /\ out b r c = first_value nodata scenes b r c)
  /\ (first_valid scenes r c = None -> out b r c = nodata).
Proof.
  intros out seen.
  assert (Hout : out b r c = first_value nodata seen b r c).
  { subst out seen. unfold composite. cbn [fst].
    rewrite fold_scenes_prefix. apply first_fold_value. }
  split; [exact Hout |]. split.
  - intros Hall.
    assert (Hseen : seen = scenes).
    { subst seen. destruct Hall as [-> | ->].
      - rewrite scenes_folded_disabled. apply firstn_all.
      - rewrite scenes_folded_zero. apply firstn_all. }
    split; [exact Hseen |]. rewrite Hout, Hseen. reflexivity.
  - intros Hnone. rewrite Hout. unfold first_value. subst seen.
    now rewrite (first_valid_prefix_none r c scenes _ Hnone).
Qed.

(** C3, amended.  Under [mean], a pixel with no contributing scene is set
    to the nodata sentinel for every list and every threshold; and when the
    early exit skips no scene in either order (in particular when the
    threshold is disabled or 0), compositing a permutation of the scene
    list gives the same output at every band and pixel, the average over
    the scenes whose mask marks the pixel valid. *)
Theorem mean_order_irrelevant (nodata : Q) (g : Grid) (t : option Q)
    (scenes scenes' : list MaskedStack) :
  Permutation scenes scenes' ->
  (forall b r c,
      contributors scenes r c = [] ->
      fst (composite nodata g scenes mean t) b r c = nodata
      /\ fst (composite nodata g scenes' mean t) b r c = nodata)
  /\ (t = None \/ t = Some 0%Q
      \/ (scenes_folded mean t g empty_accumulator scenes = length scenes
          /\ scenes_folded mean t g empty_accumulator scenes'
             = length scenes') ->
      forall b r c,
        fst (composite nodata g scenes mean t) b r c
        = fst (composite nodata g scenes' mean t) b r c
        /\ fst (composite nodata g scenes mean t) b r c
           = mean_value nodata scenes b r c).
Proof.
  intros Hp. split.
  - intros b r c Hnil. split; [now apply mean_no_contributor_nodata |].
    apply mean_no_contributor_nodata.
    pose proof (contributors_perm r c _ _ Hp) as Hc.
    rewrite Hnil in Hc. now apply Permutation_nil in Hc.
  - intros Hall b r c.
    assert (Hfold : forall l,
               scenes_folded mean t g empty_accumulator l = length l ->
               fst (composite nodata g l mean t) b r c
               = mean_value nodata l b r c).
    { intros l Hl. unfold composite. cbn [fst].
      rewrite fold_scenes_all by exact Hl. apply mean_fold_value. }
    assert (Hboth :
              scenes_folded mean t g empty_accumulator scenes = length scenes
              /\ scenes_folded mean t g empty_accumulator scenes'
                 = length scenes').
    { destruct Hall as [-> | [-> | Hall]]; [| | exact Hall].
      - split; apply scenes_folded_disabled.
      - split; apply scenes_folded_zero. }
    destruct Hboth as [H1 H2].
    rewrite !Hfold by assumption.
    split; [now apply mean_value_perm | reflexivity].
Qed.

(** C1.  For every method and every ordered list of masked scene stacks,
    the fold with [no_data_threshold = 0] takes in every scene, and its
    result, the output array and the reported invalid fraction, is the
    result of the fold with the early exit disabled. *)
Theorem zero_threshold_matches_full_fold (nodata : Q) (g : Grid)
    (m : Method) (scenes : list MaskedStack) :
  scenes_folded m (Some 0%Q) g empty_accumulator scenes = length scenes
  /\ composite nodata g scenes m (Some 0%Q) = composite nodata g scenes m None
  /\ array_eq g (fst (composite nodata g scenes m (Some 0%Q)))
                (fst (composite nodata g scenes m None)).
Proof.
  assert (Hsame : composite nodata g scenes m (Some 0%Q)
                  = composite nodata g scenes m None).
  { unfold composite.
    rewrite fold_scenes_disabled.
    rewrite (fold_scenes_all m (Some 0%Q))
      by apply scenes_folded_zero.
    reflexivity. }
  split; [apply scenes_folded_zero |]. split; [exact Hsame |].
  intros b r c _ _. now rewrite Hsame.
Qed.

Import Examples.

(** *** The two-scene scenario *)

(** [first], S2 before S1, default threshold: a pixel clear in S2 takes S2's
    value, a pixel cloudy in S2 but clear in S1 takes S1's value, a pixel
    cloudy in both is nodata. *)
Example scenario_first :
  let out :=
    fst (composite 0%Q grid_10x10 [scene_S2; scene_S1] first
           (Some (1 # 100)%Q)) in
  out 0 3 3 = inject_Z 200
  /\ out 0 0 6 = inject_Z 100
  /\ out 0 0 9 = 0%Q
  /\ snd (composite 0%Q grid_10x10 [scene_S2; scene_S1] first
            (Some (1 # 100)%Q)) = (2 # 100)%Q.
Proof. vm_compute. repeat split. Qed.

(** [mean]: a pixel clear in both scenes is the arithmetic mean of the two
    values, a pixel clear only in S1 is S1's value. *)
Example scenario_mean :
  let out :=
    fst (composite 0%Q grid_10x10 [scene_S2; scene_S1] mean
           (Some (1 # 100)%Q)) in
  Qeq (out 0 3 3) (inject_Z 150)
  /\ out 0 0 6 = inject_Z 100
  /\ out 0 0 9 = 0%Q.
Proof. vm_compute. repeat split. Qed.

(** Reversing the order changes the [first] output where both are clear. *)
Example scenario_first_reversed :
  fst (composite 0%Q grid_10x10 [scene_S1; scene_S2] first
         (Some (1 # 100)%Q)) 0 3 3 = inject_Z 100.
Proof. vm_compute. reflexivity. Qed.

Lemma first_takes_first_valid_witness :
  fst (composite 0%Q grid_10x10 [corner_cloud_scene 5; clear_scene 7]
         first (Some 0%Q)) 0 0 0
  = first_value 0%Q [corner_cloud_scene 5; clear_scene 7] 0 0 0.
Proof.
  refine (proj2 (proj1 (proj2
    (first_takes_first_valid 0%Q grid_10x10
       [corner_cloud_scene 5; clear_scene 7] (Some 0%Q) 0 0 0)) _)).
  right. reflexivity.
Defined.

Lemma mean_order_irrelevant_witness :
  fst (composite 0%Q grid_1x1 [clear_scene 2; clear_scene 4] mean None) 0 0 0
  = fst (composite 0%Q grid_1x1 [clear_scene 4; clear_scene 2] mean None)
      0 0 0.
Proof.
  refine (proj1 (proj2
    (mean_order_irrelevant 0%Q grid_1x1 None
       [clear_scene 2; clear_scene 4] [clear_scene 4; clear_scene 2] _)
    _ 0 0 0)).
  - apply perm_swap.
  - left. reflexivity.
Defined.

(** With the default threshold 0.01 on a 20 x 20 grid, the [first] fold
    stops after a scene that leaves pixel (0, 0) invalid, the invalid
    fraction 1/400 being below the threshold: the pixel gets the nodata
    sentinel although the next scene is valid there. *)
Lemma first_early_exit_leaves_valid_pixel_nodata :
  let scenes := [corner_cloud_scene 5; clear_scene 7] in
  let out :=
    fst (composite 0%Q grid_20x20 scenes first (Some (1 # 100)%Q)) in
  pixel_valid (clear_scene 7) 0 0 = true
  /\ first_value 0%Q scenes 0 0 0 = inject_Z 7
  /\ snd (composite 0%Q grid_20x20 scenes first (Some (1 # 100)%Q))
     = (1 # 400)%Q
  /\ out 0 0 0 = 0%Q
  /\ ~ Qeq (out 0 0 0) (first_value 0%Q scenes 0 0 0).
Proof.
  cbv zeta. split; [reflexivity |]. split; [reflexivity |].
  split; [vm_compute; reflexivity |].
  split; [vm_compute; reflexivity |].
  vm_compute. intros Heq. discriminate Heq.
Qed.

(** On the threshold itself the fold goes on: on a 10 x 10 grid the same
    two scenes leave 1/100 after the first, and pixel (0, 0) takes the
    value of the second. *)
Example first_on_threshold_goes_on :
  fst (composite 0%Q grid_10x10 [corner_cloud_scene 5; clear_scene 7] first
         (Some (1 # 100)%Q)) 0 0 0 = inject_Z 7.
Proof. vm_compute. reflexivity. Qed.

(** With the default threshold 0.01, two fully clear scenes in the two
    possible orders give different [mean] outputs: the fold stops after
    the first scene, which leaves no invalid pixel. *)
Lemma mean_early_exit_depends_on_order :
  Permutation [clear_scene 2; clear_scene 4] [clear_scene 4; clear_scene 2]
  /\ fst (composite 0%Q grid_1x1 [clear_scene 2; clear_scene 4] mean
            (Some (1 # 100)%Q)) 0 0 0 = inject_Z 2
  /\ fst (composite 0%Q grid_1x1 [clear_scene 4; clear_scene 2] mean
            (Some (1 # 100)%Q)) 0 0 0 = inject_Z 4
  /\ ~ Qeq (fst (composite 0%Q grid_1x1 [clear_scene 2; clear_scene 4] mean
                    (Some (1 # 100)%Q)) 0 0 0)
             (fst (composite 0%Q grid_1x1 [clear_scene 4; clear_scene 2] mean
                    (Some (1 # 100)%Q)) 0 0 0).
Proof.
  split; [apply perm_swap |].
  split; [vm_compute; reflexivity |].
  split; [vm_compute; reflexivity |].
  vm_compute. intros Heq. discriminate Heq.
Qed.

(** With threshold 0 and the [mean] rule both scenes are averaged, also
    when the first one covers the grid. *)
Example zero_threshold_mean_folds_all :
  Qeq (fst (composite 0%Q grid_1x1 [clear_scene 2; clear_scene 4] mean
              (Some 0%Q)) 0 0 0)
      (inject_Z 3).
Proof. vm_compute. reflexivity. Qed.

End CompositorFacts.

(* ===================================================================== *)
(** * Control and data flow of [mosaic] *)
(* ===================================================================== *)

Module CoordinatorFlow.
Import Py Coordinator CoordinatorFacts.

(** Pick the length of the prefix of [full_run_ranks] a log covers. *)
Ltac pick_prefix :=
  first [ exists 1; split; [reflexivity | lia]
        | exists 2; split; [reflexivity | lia]
        | exists 3; split; [reflexivity | lia]
        | exists 4; split; [reflexivity | lia]
        | exists 5; split; [reflexivity | lia]
        | exists 6; split; [reflexivity | lia]
        | exists 7; split; [reflexivity | lia]
        | exists 8; split; [reflexivity | lia]
        | exists 9; split; [reflexivity | lia]
        | exists 10; split; [reflexivity | lia] ].

(** Symbolic execution that remembers what lines 166-170 computed. *)
Ltac wp_labels_step :=
  match goal with
  | |- wp (match export_labels ?b with (_, _) => _ end) _ _ =>
      let Hl := fresh "Hl" in destruct (export_labels b) eqn:Hl
  | _ => wp_step
  end.

Ltac wp_run_labels :=
  match goal with
  | |- context [run ?H ?a ?w] =>
      pattern (fst (run H a w)), (snd (run H a w));
      apply wp_run; unfold mosaic, mosaic_pipeline; repeat wp_labels_step
  end.

Section Flow.
Context {World Bounds Date Path Item Annotated SortedItems Array Profile : Type}.
Variable H :
  @Helpers World Bounds Date Path Item Annotated SortedItems Array Profile.
Variable a : Args.
Variable w : World.

(** Lines 117-182 are straight-line code: every run calls the helpers in
    source order, each at most once and without skipping one, starting with
    the tile lookup; with an output directory the run also computes the
    export path, checks it and exports. *)
Theorem calls_follow_source_order :
  exists n,
    map call_rank (calls (snd (run H a w)))
    = firstn n (full_run_ranks (truthy (output_dir a)))
    /\ 1 <= n.
Proof.
  wp_run.
  all: cbn [snd calls map call_rank].
  all: try destruct (truthy (output_dir a)).
  all: pick_prefix.
Qed.

(** Lines 148-165: annotate, sort, fetch and export run exactly on a
    non-empty catalog answer. *)
Theorem work_only_on_found_scenes :
  (In call_add_item_info (calls (snd (run H a w)))
   <-> exists items,
         items <> []
         /\ In (call_search_for_items (Returned items))
               (calls (snd (run H a w))))
  /\ (forall c, In c (calls (snd (run H a w))) -> is_work c = true ->
                In call_add_item_info (calls (snd (run H a w)))).
Proof.
  wp_run.
  all: cbn [snd calls].
  all: split; [split |].
  all: try (intros HIn; log_cases HIn; fail).
  all: try (intros c HIn Hc; log_cases HIn; subst c; try discriminate Hc;
            simpl; tauto).
  all: try (intros (items & Hne & HIn); log_cases HIn;
            injection HIn as Hit; subst items;
            match goal with
            | Hlen : (length ?l =? 0)%nat = true |- _ =>
                destruct l; [congruence | simpl in Hlen; discriminate Hlen]
            end).
  all: try (intros _; simpl; tauto).
  all: intros _;
       match goal with
       | Hlen : (length ?l =? 0)%nat = false |- _ =>
           exists l; split; [intros ->; discriminate Hlen | simpl; tauto]
       end.
Qed.

(** Lines 140-144: the run goes on to the catalog search after the
    existence check unless the file exists and [overwrite] is false. *)
Theorem skipped_only_when_present_and_kept out_path found :
  In (call_exists out_path found) (calls (snd (run H a w))) ->
  found && negb (overwrite a) = false ->
  exists answer,
    In (call_search_for_items answer) (calls (snd (run H a w))).
Proof.
  revert out_path found. wp_run.
  all: cbn [snd calls].
  all: intros out_path found HIn Hkeep; log_cases HIn.
  all: try (injection HIn as <- <-; congruence).
  all: eexists; simpl; tauto.
Qed.

(** Lines 129-182 with [output_dir] false in [if output_dir:] ([None] or
    the empty string): a run that returns gives back exactly the pair
    [download_bands_pool] returned for the caller's own band list,
    threshold, method, batch size, dtype and cache flag, in the world that
    call left; no export path is computed or checked and nothing is
    exported. *)
Theorem in_memory_result_is_download_result :
  truthy (output_dir a) = false ->
  (forall r,
      fst (run H a w) = Returned r ->
      exists mosaic profile sorted_items w1,
        r = InMemory mosaic profile
        /\ download_bands_pool H sorted_items (required_bands a)
             (no_data_threshold a) (mosaic_method a) (ocm_batch_size a)
             (ocm_inference_dtype a) (debug_cache a) w1
           = (Returned (mosaic, profile), world (snd (run H a w))))
  /\ (forall c, In c (calls (snd (run H a w))) -> is_disk_call c = false).
Proof.
  wp_run.
  all: cbn [fst snd calls world].
  all: intros Hdir; try congruence.
  all: split;
    [ intros r Hr; try discriminate Hr
    | intros c HIn; log_cases HIn; subst c; reflexivity ].
  injection Hr as <-. do 4 eexists. split; [reflexivity | eassumption].
Qed.

(** Lines 129-182 with an output directory: a run that returns gives back
    the export path whose existence it checked, and either that file was
    there with [overwrite] false, or [export_tif] was called on that path
    after the fetch, with the labels of lines 166-170, and returned. *)
Theorem written_path_was_checked_and_exported :
  truthy (output_dir a) = true ->
  forall r,
    fst (run H a w) = Returned r ->
    exists out_path,
      r = Written out_path
      /\ (exists found,
             In (call_exists out_path found) (calls (snd (run H a w))))
      /\ ((In (call_exists out_path true) (calls (snd (run H a w)))
           /\ overwrite a = false)
          \/ (In call_download_bands_pool (calls (snd (run H a w)))
              /\ exists mosaic profile w1,
                   export_tif H mosaic profile out_path
                     (fst (export_labels (required_bands a)))
                     (snd (export_labels (required_bands a))) w1
                   = (Returned tt, world (snd (run H a w))))).
Proof.
  wp_run.
  all: cbn [fst snd calls world].
  all: intros Hdir r Hr; try congruence; try discriminate Hr.
  all: injection Hr as <-; eexists; split; [reflexivity |].
  all: split; [eexists; simpl; tauto |].
  - left. apply andb_prop in Hb0. destruct Hb0 as [Hfound Hkeep].
    rewrite Hfound. split; [simpl; tauto |].
    now destruct (overwrite a).
  - right. split; [simpl; tauto |].
    match goal with
    | E : export_tif _ _ _ _ _ _ _ = (Returned ?u, _) |- _ => destruct u
    end.
    do 3 eexists. cbn [fst snd]. eassumption.
Qed.



(** [mosaic] has no exception handler and raises in one place only: an
    exception that leaves it was raised by one of the helpers, which left
    the final world, or is the "No scenes found" exception of line 149 for
    the dates in use, after an empty catalog answer. *)
Theorem raised_exceptions_have_a_source e :
  fst (run H a w) = Raised e ->
  RaisedBy H a e (world (snd (run H a w))).
Proof.
  wp_run_labels.
  all: cbn [fst snd calls world].
  all: intros Hr; try discriminate Hr; injection Hr as <-.
  all: try (eapply by_export_tif;
            match goal with
            | Hl : export_labels _ = _ |- _ => rewrite Hl
            end; cbn [fst snd]; eassumption).
  all: eauto using RaisedBy.
  all: match goal with
       | Hlen : (length ?l =? 0)%nat = true |- _ =>
           destruct l; [| discriminate Hlen]
       end.
  all: eapply by_no_scenes; [eassumption | reflexivity].
Qed.

(** Lines 129, 140 and 172 test [output_dir] for truth only: every
    [output_dir] that is false there ([None] or the empty string) gives the
    same run as [None], whatever [overwrite] is: the same outcome, the same
    calls and the same final world. *)
Theorem falsy_output_dir_is_none (d : option DirArg) (o : bool) :
  truthy (output_dir a) = false ->
  truthy d = false ->
  run H (with_overwrite (with_output_dir a d) o) w = run H a w.
Proof.
  intros Ha Hd. unfold run, mosaic.
  cbn [grid_id start_year start_month start_day output_dir sort_method
       mosaic_method duration_years duration_months duration_days
       required_bands no_data_threshold overwrite ocm_batch_size
       ocm_inference_dtype debug_cache with_overwrite with_output_dir].
  rewrite Ha, Hd. reflexivity.
Qed.

(** Lines 117-146: the catalog is searched only after the tile lookup,
    [validate_inputs] on the caller's arguments and [define_dates] have all
    returned, each in the world the one before left, and the search gets
    the bounds and the dates those calls returned. *)
Theorem search_after_validated_inputs answer :
  In (call_search_for_items answer) (calls (snd (run H a w))) ->
  exists bounds start_date end_date w0 w1 w2 w3 w4,
    get_extent_from_grid_id H (grid_id a) w = (Returned bounds, w0)
    /\ validate_inputs H (sort_method a) (mosaic_method a)
         (no_data_threshold a) (required_bands a) w0 = (Returned tt, w1)
    /\ define_dates H (start_year a) (start_month a) (start_day a)
         (duration_years a) (duration_months a) (duration_days a) w1
       = (Returned (start_date, end_date), w2)
    /\ search_for_items H bounds (grid_id a) start_date end_date w3
       = (answer, w4).
Proof.
  revert answer. wp_run.
  all: cbn [snd calls].
  all: intros answer HIn; log_cases HIn.
  all: injection HIn as <-.
  all: repeat match goal with u : unit |- _ => destruct u end.
  all: do 8 eexists; repeat split; eassumption.
Qed.


End Flow.

Import Examples.

Lemma search_after_validated_inputs_witness :
  exists bounds start_date end_date w0 w1 w2 w3 w4,
    get_extent_from_grid_id (stub_helpers [] false) "50HMH" tt
    = (Returned bounds, w0)
    /\ validate_inputs (stub_helpers [] false)
         (sort_method args_in_memory) (mosaic_method args_in_memory)
         (no_data_threshold args_in_memory) (required_bands args_in_memory)
         w0 = (Returned tt, w1)
    /\ define_dates (stub_helpers [] false)
         (start_year args_in_memory) (start_month args_in_memory)
         (start_day args_in_memory) (duration_years args_in_memory)
         (duration_months args_in_memory) (duration_days args_in_memory) w1
       = (Returned (start_date, end_date), w2)
    /\ search_for_items (stub_helpers [] false) bounds "50HMH"
         start_date end_date w3
       = (Returned [], w4).
Proof.
  apply (search_after_validated_inputs
           (stub_helpers [] false) args_in_memory tt (Returned [])).
  simpl. tauto.
Defined.


Lemma work_only_on_found_scenes_witness :
  In call_add_item_info
     (calls (snd (run (stub_helpers ["S2A_20200105"] false)
                    args_in_memory tt))).
Proof.
  apply (proj2 (work_only_on_found_scenes
                  (stub_helpers ["S2A_20200105"] false) args_in_memory tt)
           call_download_bands_pool).
  - simpl. tauto.
  - reflexivity.
Defined.

Lemma skipped_only_when_present_and_kept_witness :
  exists answer,
    In (call_search_for_items answer)
       (calls (snd (run (stub_helpers ["S2A_20200105"] true)
                      args_visual tt))).
Proof.
  apply (skipped_only_when_present_and_kept
           (stub_helpers ["S2A_20200105"] true) args_visual tt
           "50HMH.tif" true).
  - simpl. tauto.
  - reflexivity.
Defined.

Lemma in_memory_result_is_download_result_witness :
  (forall r,
      fst (run (stub_helpers ["S2A_20200105"] false) args_in_memory tt)
      = Returned r ->
      exists mosaic profile sorted_items w1,
        r = InMemory mosaic profile
        /\ download_bands_pool (stub_helpers ["S2A_20200105"] false)
             sorted_items (required_bands args_in_memory)
             (no_data_threshold args_in_memory)
             (mosaic_method args_in_memory) (ocm_batch_size args_in_memory)
             (ocm_inference_dtype args_in_memory)
             (debug_cache args_in_memory) w1
           = (Returned (mosaic, profile),
              world (snd (run (stub_helpers ["S2A_20200105"] false)
                            args_in_memory tt))))
  /\ (forall c,
         In c (calls (snd (run (stub_helpers ["S2A_20200105"] false)
                             args_in_memory tt))) ->
         is_disk_call c = false).
Proof.
  apply (in_memory_result_is_download_result
           (stub_helpers ["S2A_20200105"] false) args_in_memory tt).
  reflexivity.
Defined.

Lemma written_path_was_checked_and_exported_witness :
  exists out_path,
    (Written "50HMH.tif" : @Result string nat nat) = Written out_path
    /\ (exists found,
           In (call_exists out_path found)
              (calls (snd (run (stub_helpers ["S2A_20200105"] false)
                             args_to_disk tt))))
    /\ ((In (call_exists out_path true)
            (calls (snd (run (stub_helpers ["S2A_20200105"] false)
                           args_to_disk tt)))
         /\ overwrite args_to_disk = false)
        \/ (In call_download_bands_pool
              (calls (snd (run (stub_helpers ["S2A_20200105"] false)
                             args_to_disk tt)))
            /\ exists mosaic profile w1,
                 export_tif (stub_helpers ["S2A_20200105"] false)
                   mosaic profile out_path
                   (fst (export_labels (required_bands args_to_disk)))
                   (snd (export_labels (required_bands args_to_disk))) w1
                 = (Returned tt,
                    world (snd (run (stub_helpers ["S2A_20200105"] false)
                                  args_to_disk tt))))).
Proof.
  apply (written_path_was_checked_and_exported
           (stub_helpers ["S2A_20200105"] false) args_to_disk tt).
  - reflexivity.
  - reflexivity.
Defined.



Lemma raised_exceptions_have_a_source_witness :
  RaisedBy (stub_helpers [] false) args_in_memory
    (no_scenes (stub_helpers [] false) "50HMH" "2020-01-01" "2020-02-01")
    (world (snd (run (stub_helpers [] false) args_in_memory tt))).
Proof.
  apply (raised_exceptions_have_a_source
           (stub_helpers [] false) args_in_memory tt).
  reflexivity.
Defined.

Lemma falsy_output_dir_is_none_witness :
  run (stub_helpers ["S2A_20200105"] false)
      (with_overwrite (with_output_dir args_in_memory (Some (DirStr ""))) false)
      tt
  = run (stub_helpers ["S2A_20200105"] false) args_in_memory tt.
Proof.
  apply (falsy_output_dir_is_none
           (stub_helpers ["S2A_20200105"] false) args_in_memory tt
           (Some (DirStr "")) false).
  - reflexivity.
  - reflexivity.
Defined.

End CoordinatorFlow.
